(** * sipgateio-mcp: the request dispatch and resource resolution core

    A shallow embedding of [src/index.ts] (class [SipgateApiServer]): the
    resource handlers of [setupResourceHandlers], the tool handlers of
    [setupToolHandlers], the resource cache [cachedResources], and the
    provider (the sipgateio client and its modules) as an oracle whose
    answers and failures are recorded in a call log. *)

From Stdlib Require Import String Ascii ZArith List Lia DecimalString.
From stdpp Require Import gmap strings.
Import ListNotations.
Local Open Scope string_scope.
Local Set Warnings "-register-all".

(** ** JavaScript values

    The handlers are written against [any]: request arguments, provider
    answers and cached data are plain JavaScript values.  Numbers are the
    integers that a double holds exactly and prints in plain decimal
    notation; a string is a sequence of code units, one [ascii] per code
    unit (code units above U+00FF are outside this model).  An object is the
    list of its own enumerable properties in enumeration order. *)

Inductive value : Type :=
| VUndefined
| VNull
| VBool (b : bool)
| VNum (n : Z)
| VStr (s : string)
| VArr (items : list value)
| VObj (fields : list (string * value)).

(** [ToBoolean]: what [!x], [x || y], [x ? a : b] and [if (x)] test. *)
Definition truthy (v : value) : bool :=
  match v with
  | VUndefined | VNull => false
  | VBool b => b
  | VNum n => negb (n =? 0)%Z
  | VStr s => negb (s =? EmptyString)
  | VArr _ | VObj _ => true
  end.

(** [x || y] *)
Definition js_or (x y : value) : value := if truthy x then x else y.

Definition string_of_Z (n : Z) : string := NilZero.string_of_int (Z.to_int n).

Definition join (sep : string) (parts : list string) : string :=
  match parts with
  | [] => EmptyString
  | p :: rest => fold_left (fun acc q => acc ++ sep ++ q) rest p
  end.

(** [ToString], as applied by template literals [`${x}`]. *)
Fixpoint ToString (v : value) : string :=
  match v with
  | VUndefined => "undefined"
  | VNull => "null"
  | VBool true => "true"
  | VBool false => "false"
  | VNum n => string_of_Z n
  | VStr s => s
  | VArr items =>
      join "," (map (fun x => match x with
                              | VUndefined | VNull => EmptyString
                              | _ => ToString x
                              end) items)
  | VObj _ => "[object Object]"
  end.

(** *** [JSON.stringify(v, null, 2)] *)

Definition hex_digit (n : N) : ascii :=
  ascii_of_N (if (n <? 10)%N then 48 + n else 87 + n).

Definition dquote : string := String (ascii_of_N 34) EmptyString.
Definition backslash : string := String (ascii_of_N 92) EmptyString.

(** [QuoteJSONString], one code unit at a time. *)
Definition quote_char (c : ascii) : string :=
  let n := N_of_ascii c in
  if (n =? 8)%N then backslash ++ "b"
  else if (n =? 9)%N then backslash ++ "t"
  else if (n =? 10)%N then backslash ++ "n"
  else if (n =? 12)%N then backslash ++ "f"
  else if (n =? 13)%N then backslash ++ "r"
  else if (n =? 34)%N then backslash ++ dquote
  else if (n =? 92)%N then backslash ++ backslash
  else if (n <? 32)%N then
    backslash ++ "u00" ++ String (hex_digit (n / 16)) (String (hex_digit (n mod 16)) EmptyString)
  else String c EmptyString.

Fixpoint quote_chars (s : string) : string :=
  match s with
  | EmptyString => EmptyString
  | String c rest => quote_char c ++ quote_chars rest
  end.

Definition QuoteJSONString (s : string) : string := dquote ++ quote_chars s ++ dquote.

Definition gap : string := "  ".
Definition newline : string := String (ascii_of_N 10) EmptyString.

Definition is_undefined (v : value) : bool :=
  match v with VUndefined => true | _ => false end.

(** [SerializeJSONProperty] for a value that is not [undefined]; inside an
    array [undefined] prints as [null], inside an object the property is
    left out. *)
Fixpoint serialize (indent : string) (v : value) : string :=
  match v with
  | VUndefined => "null"
  | VNull => "null"
  | VBool true => "true"
  | VBool false => "false"
  | VNum n => string_of_Z n
  | VStr s => QuoteJSONString s
  | VArr items =>
      let inner := indent ++ gap in
      match map (serialize inner) items with
      | [] => "[]"
      | parts =>
          "[" ++ newline ++ inner ++ join ("," ++ newline ++ inner) parts
              ++ newline ++ indent ++ "]"
      end
  | VObj fields =>
      let inner := indent ++ gap in
      match
        flat_map (fun kv : string * value =>
                    if is_undefined (snd kv) then []
                    else [QuoteJSONString (fst kv) ++ ": " ++ serialize inner (snd kv)])
                 fields
      with
      | [] => "{}"
      | parts =>
          "{" ++ newline ++ inner ++ join ("," ++ newline ++ inner) parts
              ++ newline ++ indent ++ "}"
      end
  end.

(** [JSON.stringify(v, null, 2)]: [None] is the result [undefined]. *)
Definition JSON_stringify (v : value) : option string :=
  match v with
  | VUndefined => None
  | _ => Some (serialize EmptyString v)
  end.

(** ** Property reads

    [base.name] for the property names this program reads ([recipient],
    [message], [from], [to], [callerId], [limit], [types], [items], [id],
    [length]); none of them is inherited from a prototype other than
    [length] on arrays and strings. *)

Fixpoint lookup_field (name : string) (fields : list (string * value)) : value :=
  match fields with
  | [] => VUndefined
  | (k, v) :: rest => if k =? name then v else lookup_field name rest
  end.

(** What a runtime [TypeError] is about. *)
Inductive type_error : Type :=
| ReadPropertyOf (base : value) (name : string)
| NotAFunction (expr : string).

Inductive ErrorCode : Type :=
| InvalidRequest
| MethodNotFound
| InvalidParams
| InternalError.

(** The values the handlers throw and catch. *)
Inductive exn : Type :=
| Error (message : string)
| TypeError (what : type_error)
| McpError (code : ErrorCode) (message : string).

Inductive outcome (A : Type) : Type :=
| Return (a : A)
| Throw (e : exn).
Arguments Return {A} a.
Arguments Throw {A} e.

Definition property (base : value) (name : string) : outcome value :=
  match base with
  | VUndefined | VNull => Throw (TypeError (ReadPropertyOf base name))
  | VObj fields => Return (lookup_field name fields)
  | VArr items =>
      Return (if name =? "length" then VNum (Z.of_nat (List.length items)) else VUndefined)
  | VStr s =>
      Return (if name =? "length" then VNum (Z.of_nat (String.length s)) else VUndefined)
  | VBool _ | VNum _ => Return VUndefined
  end.

(** [base[0]] *)
Definition element0 (base : value) : outcome value :=
  match base with
  | VUndefined | VNull => Throw (TypeError (ReadPropertyOf base "0"))
  | VObj fields => Return (lookup_field "0" fields)
  | VArr items => Return (hd VUndefined items)
  | VStr (String c _) => Return (VStr (String c EmptyString))
  | VStr EmptyString | VBool _ | VNum _ => Return VUndefined
  end.

(** [x === 0] *)
Definition is_zero (x : value) : bool :=
  match x with
  | VNum n => (n =? 0)%Z
  | _ => false
  end.

(** The class [\s] of a regular expression, on the code units of the model:
    tab, line feed, vertical tab, form feed, carriage return, space and
    no-break space. *)
Definition is_whitespace (c : ascii) : bool :=
  let n := N_of_ascii c in
  ((9 <=? n) && (n <=? 13) || (n =? 32) || (n =? 160))%N.

(** [s.replace(/\s+/g, '')] on a string. *)
Fixpoint strip_whitespace (s : string) : string :=
  match s with
  | EmptyString => EmptyString
  | String c rest =>
      if is_whitespace c then strip_whitespace rest
      else String c (strip_whitespace rest)
  end.

(** [x.replace(/\s+/g, '')] on any value: only strings have [replace]. *)
Definition replace_whitespace (expr : string) (x : value) : outcome value :=
  match x with
  | VStr s => Return (VStr (strip_whitespace s))
  | VUndefined | VNull => Throw (TypeError (ReadPropertyOf x "replace"))
  | _ => Throw (TypeError (NotAFunction (expr ++ ".replace")))
  end.

(** ** The host: provider, SDK and engine

    [answer] is the sipgateio client with its modules: each call is
    answered from the provider's current state, with a value or with a
    rejection carrying an [Error]'s message, and moves the provider to a new
    state.  [McpError_message] is the [message] property of
    [new McpError(code, message)] and [TypeError_message] the message of a
    runtime [TypeError]; both are fixed outside this repository. *)

Inductive ProviderCall : Type :=
| client_get (path : string)
| client_getAuthenticatedWebuserId
| numbersModule_getAllNumbers
| historyModule_fetchAll (filter : value)
| devicesModule_getDevices (webuserId : value)
| smsModule_send (smsData : value)
| callModule_initiate (callData : value).

Class Host (World : Type) : Type := {
  answer : ProviderCall -> World -> (value + string) * World;
  McpError_message : ErrorCode -> string -> string;
  TypeError_message : type_error -> string
}.

(** [error.message] *)
Definition message {World} `{Host World} (error : exn) : string :=
  match error with
  | Error m => m
  | TypeError what => TypeError_message what
  | McpError code m => McpError_message code m
  end.

(** ** Server state and the handler monad *)

Record State (World : Type) : Type := {
  world : World;
  calls : list (ProviderCall * (value + string));
  cachedResources : gmap string value
}.
Arguments world {World} _.
Arguments calls {World} _.
Arguments cachedResources {World} _.

Definition M (World A : Type) : Type := State World -> outcome A * State World.

Definition ret {World A} (a : A) : M World A := fun st => (Return a, st).

Definition throw {World A} (e : exn) : M World A := fun st => (Throw e, st).

Definition bind {World A B} (c : M World A) (k : A -> M World B) : M World B :=
  fun st =>
    match c st with
    | (Return a, st') => k a st'
    | (Throw e, st') => (Throw e, st')
    end.

(** [try { body } catch (error) { handler }] *)
Definition try_catch {World A} (body : M World A) (handler : exn -> M World A) : M World A :=
  fun st =>
    match body st with
    | (Return a, st') => (Return a, st')
    | (Throw e, st') => handler e st'
    end.

Definition lift {World A} (o : outcome A) : M World A := fun st => (o, st).

(** [await] of one provider call: the call and its answer are appended to
    the log; a rejection is thrown as an [Error]. *)
Definition call {World} `{Host World} (c : ProviderCall) : M World value :=
  fun st =>
    let '(a, w) := answer c (world st) in
    let st' := {| world := w;
                  calls := calls st ++ [(c, a)];
                  cachedResources := cachedResources st |} in
    match a with
    | inl v => (Return v, st')
    | inr m => (Throw (Error m), st')
    end.

Declare Scope handler_scope.
Delimit Scope handler_scope with handler.
Notation "x <- c ;; k" := (bind c (fun x => k))
  (at level 100, c at next level, right associativity) : handler_scope.
Notation "c ;;; k" := (bind c (fun _ => k))
  (at level 100, right associativity) : handler_scope.

(** ** Results of the two request handlers *)

Module Resource.
Record Contents : Type := {
  uri : string;
  mimeType : string;
  text : option string
}.
Record ReadResult : Type := { contents : list Contents }.
End Resource.

Module Tool.
Record TextContent : Type := {
  type : string;
  text : option string
}.
(** The response envelope; [isError] is [None] where the object literal
    has no [isError] property. *)
Record Envelope : Type := {
  content : list TextContent;
  isError : option bool
}.
End Tool.

(** [`${x}`] for the result of [JSON.stringify]. *)
Definition template (x : option string) : string :=
match x with
| Some s => s
| None => "undefined"
end.

(** ** The resource cache

  [cachedResources] starts as the object literal [{}], so a read
  [this.cachedResources[uri]] that finds no own property falls through to
  [Object.prototype]. *)

Inductive slot : Type :=
| Data (v : value)
| BuiltinFunction
| ObjectPrototype.

Definition Object_prototype_functions : list string :=
["constructor"; "__defineGetter__"; "__defineSetter__"; "hasOwnProperty";
 "__lookupGetter__"; "__lookupSetter__"; "isPrototypeOf";
 "propertyIsEnumerable"; "toString"; "valueOf"; "toLocaleString"].

Definition inherited (name : string) : slot :=
if existsb (String.eqb name) Object_prototype_functions then BuiltinFunction
else if name =? "__proto__" then ObjectPrototype
else Data VUndefined.

Definition cache_read (cache : gmap string value) (uri : string) : slot :=
match cache !! uri with
| Some v => Data v
| None => inherited uri
end.

Definition slot_truthy (s : slot) : bool :=
match s with
| Data v => truthy v
| BuiltinFunction | ObjectPrototype => true
end.

Definition slot_stringify (s : slot) : option string :=
match s with
| Data v => JSON_stringify v
| BuiltinFunction => None
| ObjectPrototype => Some "{}"
end.

Section Handlers.
Context {World : Type} `{Host World}.
Local Open Scope handler_scope.

(** *** [setupResourceHandlers] *)

(** The answer to [ListResourcesRequestSchema]. *)
Definition ListResources : value :=
  VObj [("resources", VArr [
    VObj [("uri", VStr "sipgate://account");
          ("mimeType", VStr "application/json");
          ("name", VStr "Account Information");
          ("description", VStr "Information about your sipgate account")];
    VObj [("uri", VStr "sipgate://numbers");
          ("mimeType", VStr "application/json");
          ("name", VStr "Phone Numbers");
          ("description", VStr "List of phone numbers associated with your sipgate account")];
    VObj [("uri", VStr "sipgate://history");
          ("mimeType", VStr "application/json");
          ("name", VStr "Call History");
          ("description", VStr "Recent call history from your sipgate account")];
    VObj [("uri", VStr "sipgate://devices");
          ("mimeType", VStr "application/json");
          ("name", VStr "Devices");
          ("description", VStr "List of devices associated with your sipgate account")]])].

Definition read_cache (uri : string) : M World slot :=
  fun st => (Return (cache_read (cachedResources st) uri), st).

(** [this.cachedResources[uri] = data] *)
Definition write_cache (uri : string) (data : value) : M World unit :=
  fun st =>
    (Return tt, {| world := world st;
                   calls := calls st;
                   cachedResources := <[uri := data]> (cachedResources st) |}).

Definition json_contents (uri : string) (text : option string) : Resource.ReadResult :=
  {| Resource.contents :=
       [{| Resource.uri := uri;
           Resource.mimeType := "application/json";
           Resource.text := text |}] |}.

(** The [if]/[else if] chain that picks the provider call for a uri. *)
Definition fetch (uri : string) : M World value :=
  if uri =? "sipgate://account" then
    call (client_get "/account")
  else if uri =? "sipgate://numbers" then
    call numbersModule_getAllNumbers
  else if uri =? "sipgate://history" then
    call (historyModule_fetchAll (VObj [("limit", VNum 20)]))
  else if uri =? "sipgate://devices" then
    webuserId <- call client_getAuthenticatedWebuserId ;;
    call (devicesModule_getDevices webuserId)
  else
    throw (McpError InvalidRequest ("Invalid URI: " ++ uri)).

(** The handler of [ReadResourceRequestSchema]. *)
Definition ReadResource (uri : string) : M World Resource.ReadResult :=
  cached <- read_cache uri ;;
  if slot_truthy cached then
    ret (json_contents uri (slot_stringify cached))
  else
    try_catch
      (data <- fetch uri ;;
       write_cache uri data ;;;
       ret (json_contents uri (JSON_stringify data)))
      (fun error =>
         throw (McpError InternalError ("Sipgate API error: " ++ message error))).
(** *** [setupToolHandlers] *)

Definition no_arguments : value :=
  VObj [("type", VStr "object"); ("properties", VObj []); ("required", VArr [])].

Definition string_property (description : string) : value :=
  VObj [("type", VStr "string"); ("description", VStr description)].

(** The answer to [ListToolsRequestSchema]. *)
Definition ListTools : value :=
  VObj [("tools", VArr [
    VObj [("name", VStr "get_account_info");
          ("description", VStr "Get information about your sipgate account");
          ("inputSchema", no_arguments)];
    VObj [("name", VStr "get_phone_numbers");
          ("description", VStr "Get a list of phone numbers associated with your sipgate account");
          ("inputSchema", no_arguments)];
    VObj [("name", VStr "send_sms");
          ("description", VStr "Send an SMS message");
          ("inputSchema", VObj [
             ("type", VStr "object");
             ("properties", VObj [
                ("smsId", string_property "The SMS ID to use for sending (e.g., 's0')");
                ("recipient", string_property
                   "The recipient's phone number in E.164 format (e.g., +4915123456789)");
                ("message", string_property "The message to send")]);
             ("required", VArr [VStr "smsId"; VStr "recipient"; VStr "message"])])];
    VObj [("name", VStr "initiate_call");
          ("description", VStr "Initiate a phone call");
          ("inputSchema", VObj [
             ("type", VStr "object");
             ("properties", VObj [
                ("from", string_property
                   "The extension ID or phone number to use for calling (e.g., 'e0' or '+4915123456789')");
                ("to", string_property "The recipient's phone number in E.164 format");
                ("callerId", string_property "Optional caller ID to display to the recipient")]);
             ("required", VArr [VStr "from"; VStr "to"])])];
    VObj [("name", VStr "get_call_history");
          ("description", VStr "Get call history");
          ("inputSchema", VObj [
             ("type", VStr "object");
             ("properties", VObj [
                ("limit", VObj [
                   ("type", VStr "number");
                   ("description", VStr "Maximum number of entries to return (default: 10)")]);
                ("types", VObj [
                   ("type", VStr "array");
                   ("items", VObj [
                      ("type", VStr "string");
                      ("enum", VArr [VStr "CALL"; VStr "VOICEMAIL"; VStr "FAX"; VStr "SMS"])]);
                   ("description", VStr "Types of entries to include")])]);
             ("required", VArr [])])];
    VObj [("name", VStr "get_user_info");
          ("description", VStr "Get information about the authenticated user");
          ("inputSchema", no_arguments)];
    VObj [("name", VStr "get_devices");
          ("description", VStr "Get a list of devices associated with your sipgate account");
          ("inputSchema", no_arguments)]])].

Definition text_content (text : option string) : list Tool.TextContent :=
  [{| Tool.type := "text"; Tool.text := text |}].

(** [{ content: [{ type: "text", text }] }] *)
Definition success (text : option string) : Tool.Envelope :=
  {| Tool.content := text_content text; Tool.isError := None |}.

(** [{ content: [{ type: "text", text }], isError: true }] *)
Definition failure (text : string) : Tool.Envelope :=
  {| Tool.content := text_content (Some text); Tool.isError := Some true |}.

Definition get_account_info : M World Tool.Envelope :=
  try_catch
    (response <- call (client_get "/account") ;;
     let responseText := JSON_stringify response in
     ret (success responseText))
    (fun error =>
       throw (McpError InternalError ("Error getting account info: " ++ message error))).

Definition get_phone_numbers : M World Tool.Envelope :=
  try_catch
    (numbers <- call numbersModule_getAllNumbers ;;
     let responseText :=
       if truthy numbers then JSON_stringify numbers
       else Some "No phone numbers available" in
     ret (success responseText))
    (fun error =>
       throw (McpError InternalError ("Error getting phone numbers: " ++ message error))).

(** [!args.a || !args.b], with the short circuit. *)
Definition missing (args : value) (a b : string) : M World bool :=
  x <- lift (property args a) ;;
  if truthy x then
    y <- lift (property args b) ;;
    ret (negb (truthy y))
  else ret true.

Definition send_sms (args : value) : M World Tool.Envelope :=
  try_catch
    (invalid <- missing args "recipient" "message" ;;
     if invalid : bool then
       throw (McpError InvalidParams
                "Missing required parameters: recipient and message are required")
     else
       webuserId <- call client_getAuthenticatedWebuserId ;;
       extensionsResponse <- call (client_get ("/" ++ ToString webuserId ++ "/sms")) ;;
       items <- lift (property extensionsResponse "items") ;;
       let smsExtensions := js_or items (VArr []) in
       length <- lift (property smsExtensions "length") ;;
       if is_zero length then
         throw (McpError InternalError "No SMS extensions available for this account")
       else
         smsExtension <- lift (element0 smsExtensions) ;;
         let debugInfo :=
           "Debug Info:" ++ newline ++
           "Web User ID: " ++ ToString webuserId ++ newline ++
           "Using SMS Extension: " ++ template (JSON_stringify smsExtension) in
         id <- lift (property smsExtension "id") ;;
         recipient <- lift (property args "recipient") ;;
         to <- lift (replace_whitespace "args.recipient" recipient) ;;
         text <- lift (property args "message") ;;
         let smsData := VObj [("smsId", id); ("to", to); ("message", text)] in
         try_catch
           (call (smsModule_send smsData) ;;;
            ret (success (Some (debugInfo ++ newline ++ newline ++
                                "SMS sent successfully to " ++ ToString recipient))))
           (fun smsError =>
              ret (failure (debugInfo ++ newline ++ newline ++
                            "SMS Error: " ++ message smsError))))
    (fun error =>
       throw (McpError InternalError ("SMS sending failed: " ++ message error))).

Definition initiate_call (args : value) : M World Tool.Envelope :=
  invalid <- missing args "from" "to" ;;
  if invalid : bool then
    throw (McpError InvalidParams "Missing required parameters: from and to are required")
  else
    from <- lift (property args "from") ;;
    to <- lift (property args "to") ;;
    callerId <- lift (property args "callerId") ;;
    let callData :=
      if truthy callerId
      then VObj [("from", from); ("to", to); ("callerId", callerId)]
      else VObj [("from", from); ("to", to)] in
    call (callModule_initiate callData) ;;;
    ret (success (Some ("Call initiated from " ++ ToString from ++ " to " ++ ToString to))).

Definition get_call_history (args : value) : M World Tool.Envelope :=
  l <- lift (property args "limit") ;;
  let limit := js_or l (VNum 10) in
  t <- lift (property args "types") ;;
  let types := js_or t (VArr [VStr "CALL"; VStr "VOICEMAIL"; VStr "FAX"; VStr "SMS"]) in
  let historyFilter := VObj [("limit", limit); ("types", types)] in
  history <- call (historyModule_fetchAll historyFilter) ;;
  let responseText :=
    if truthy history then JSON_stringify history
    else Some "No call history available" in
  ret (success responseText).

Definition get_user_info : M World Tool.Envelope :=
  webuserId <- call client_getAuthenticatedWebuserId ;;
  response <- call (client_get ("/users/" ++ ToString webuserId)) ;;
  let responseText := JSON_stringify response in
  ret (success responseText).

Definition get_devices : M World Tool.Envelope :=
  webuserId <- call client_getAuthenticatedWebuserId ;;
  devices <- call (devicesModule_getDevices webuserId) ;;
  ret (success (if truthy devices then JSON_stringify devices
                else Some "No devices available")).

(** The [switch (request.params.name)] inside the outer [try]. *)
Definition tool_switch (name : string) (arguments : value) : M World Tool.Envelope :=
  if name =? "get_account_info" then get_account_info
  else if name =? "get_phone_numbers" then get_phone_numbers
  else if name =? "send_sms" then send_sms arguments
  else if name =? "initiate_call" then initiate_call arguments
  else if name =? "get_call_history" then get_call_history arguments
  else if name =? "get_user_info" then get_user_info
  else if name =? "get_devices" then get_devices
  else throw (McpError MethodNotFound ("Unknown tool: " ++ name)).

(** The handler of [CallToolRequestSchema]. *)
Definition CallTool (name : string) (arguments : value) : M World Tool.Envelope :=
  try_catch
    (tool_switch name arguments)
    (fun error => ret (failure ("Sipgate API error: " ++ message error))).

(** *** The server: requests handled one after the other *)

Inductive Request : Type :=
| ListResourcesRequest
| ReadResourceRequest (uri : string)
| ListToolsRequest
| CallToolRequest (name : string) (arguments : value).

Inductive Response : Type :=
| Listing (result : value)
| ResourceResult (result : Resource.ReadResult)
| ToolResult (result : Tool.Envelope).

Definition handle (request : Request) : M World Response :=
  match request with
  | ListResourcesRequest => ret (Listing ListResources)
  | ReadResourceRequest uri => r <- ReadResource uri ;; ret (ResourceResult r)
  | ListToolsRequest => ret (Listing ListTools)
  | CallToolRequest name arguments => r <- CallTool name arguments ;; ret (ToolResult r)
  end.

(** The state after a sequence of requests, whatever their outcomes. *)
Fixpoint serve (requests : list Request) (st : State World) : State World :=
  match requests with
  | [] => st
  | request :: rest => serve rest (snd (handle request st))
  end.

(** A fresh server: nothing cached, no call made. *)
Definition start (w : World) : State World :=
  {| world := w; calls := []; cachedResources := ∅ |}.
End Handlers.

(** ** Descriptors *)

Definition strings_of (v : value) : list string :=
  match v with
  | VArr items => flat_map (fun x => match x with VStr s => [s] | _ => [] end) items
  | _ => []
  end.

(** The uris of the resource descriptors. *)
Definition resource_uris : list string :=
  match lookup_field "resources" (match ListResources with VObj f => f | _ => [] end) with
  | VArr descriptors => flat_map (fun d => strings_of (VArr [match d with
                                                             | VObj f => lookup_field "uri" f
                                                             | _ => VUndefined
                                                             end])) descriptors
  | _ => []
  end.

Definition descriptor_of (name : string) : option value :=
  match lookup_field "tools" (match ListTools with VObj f => f | _ => [] end) with
  | VArr descriptors =>
      find (fun d => match d with
                     | VObj f => match lookup_field "name" f with
                                 | VStr n => n =? name
                                 | _ => false
                                 end
                     | _ => false
                     end) descriptors
  | _ => None
  end.

(** [inputSchema.required] of the tool's descriptor. *)
Definition required (name : string) : list string :=
  match descriptor_of name with
  | Some (VObj f) =>
      match lookup_field "inputSchema" f with
      | VObj schema => strings_of (lookup_field "required" schema)
      | _ => []
      end
  | _ => []
  end.

(** The names of the tool descriptors. *)
Definition tool_names : list string :=
  match lookup_field "tools" (match ListTools with VObj f => f | _ => [] end) with
  | VArr descriptors =>
      flat_map (fun d => strings_of (VArr [match d with
                                           | VObj f => lookup_field "name" f
                                           | _ => VUndefined
                                           end])) descriptors
  | _ => []
  end.

(** ** A scripted host for concrete runs

    The provider's state is the list of answers it will still give, one per
    call, whatever the call; when the script is over every call is
    rejected.  The messages are those of the SDK's [McpError] constructor
    and of V8. *)

Definition code_number (code : ErrorCode) : Z :=
  match code with
  | InvalidRequest => -32600
  | MethodNotFound => -32601
  | InvalidParams => -32602
  | InternalError => -32603
  end.

Definition scripted_answer (c : ProviderCall) (script : list (value + string))
  : (value + string) * list (value + string) :=
  match script with
  | a :: rest => (a, rest)
  | [] => (inr "connect ECONNREFUSED", [])
  end.

Definition v8_message (what : type_error) : string :=
  match what with
  | ReadPropertyOf base name =>
      "Cannot read properties of " ++ ToString base ++ " (reading '" ++ name ++ "')"
  | NotAFunction expr => expr ++ " is not a function"
  end.

#[export] Instance scripted : Host (list (value + string)) := {
  answer := scripted_answer;
  McpError_message code m := "MCP error " ++ string_of_Z (code_number code) ++ ": " ++ m;
  TypeError_message := v8_message
}.

(** Sample data of the concrete runs. *)

Definition sample_account : value := VObj [("company", VStr "ACME")].

(** The provider lists extension [s1] before [s0]. *)
Definition listed_extensions : value :=
  VObj [("items", VArr [VObj [("id", VStr "s1")]; VObj [("id", VStr "s0")]])].

(** The caller asks for extension [s9]. *)
Definition sms_arguments : value :=
  VObj [("smsId", VStr "s9"); ("recipient", VStr "+49 151 2345 6789");
        ("message", VStr "hi")].

Definition sms_without_smsId : value :=
  VObj [("recipient", VStr "+49 151 2345 6789"); ("message", VStr "hi")].

Definition sent_sms : value :=
  VObj [("smsId", VStr "s1"); ("to", VStr "+4915123456789"); ("message", VStr "hi")].

Definition sms_script : list (value + string) :=
  [inl (VStr "w0"); inl listed_extensions; inl VUndefined].

Definition history_entry : value := VObj [("id", VStr "1"); ("type", VStr "CALL")].

(** ** Vocabulary of the properties *)

(** The provider calls logged between two states of the server. *)
Definition made {World} (before after : State World)
  : list (ProviderCall * (value + string)) :=
  skipn (List.length (calls before)) (calls after).

(** Some logged call was rejected by the provider. *)
Definition rejected (log : list (ProviderCall * (value + string))) : Prop :=
  exists c m, In (c, inr m) log.

(** An envelope with [isError: true] and a non-empty text. *)
Definition error_envelope (env : Tool.Envelope) : Prop :=
  Tool.isError env = Some true /\
  exists t, Tool.content env = [{| Tool.type := "text"; Tool.text := Some t |}] /\
            t <> EmptyString.

(** [c] only appends to the call log and leaves the cache alone; when one of
    the calls it made was rejected, it throws or returns a result that
    satisfies [ok]. *)
Definition guarded {World A} (ok : A -> Prop) (c : M World A) : Prop :=
  forall st, exists new,
    calls (snd (c st)) = (calls st ++ new)%list /\
    cachedResources (snd (c st)) = cachedResources st /\
    (rejected new ->
     match fst (c st) with
     | Throw _ => True
     | Return a => ok a
     end).

(** [h] makes no provider call, leaves the cache alone, and throws or
    returns a result that satisfies [ok]. *)
Definition quiet {World A} (ok : A -> Prop) (h : M World A) : Prop :=
  forall st,
    calls (snd (h st)) = calls st /\
    cachedResources (snd (h st)) = cachedResources st /\
    match fst (h st) with
    | Throw _ => True
    | Return a => ok a
    end.

Definition never {A} : A -> Prop := fun _ => False.

(** A tool call that names no tool, or leaves out an argument that the
    handler of [send_sms] or of [initiate_call] checks for. *)
Definition malformed (name : string) (arguments : value) : Prop :=
  ~ In name tool_names \/
  (exists fields, arguments = VObj fields /\
     ((name = "initiate_call" /\
       (truthy (lookup_field "from" fields) = false \/
        truthy (lookup_field "to" fields) = false)) \/
      (name = "send_sms" /\
       (truthy (lookup_field "recipient" fields) = false \/
        truthy (lookup_field "message" fields) = false)))).

(** The filter that [get_call_history] builds from its defaults. *)
Definition default_filter : value :=
  VObj [("limit", VNum 10);
        ("types", VArr [VStr "CALL"; VStr "VOICEMAIL"; VStr "FAX"; VStr "SMS"])].

(** ** Start-up

    The module reads the two credentials from [process.env] (a variable is a
    string or is not set) and refuses to go on without them. *)

Definition env_var (env : gmap string string) (name : string) : value :=
  match env !! name with
  | Some s => VStr s
  | None => VUndefined
  end.

(** [TOKEN_ID] and [TOKEN], or the [Error] thrown before the server is
    constructed. *)
Definition credentials (env : gmap string string) : outcome (value * value) :=
  let TOKEN_ID := js_or (env_var env "SIPGATE_TOKEN_ID") (VStr EmptyString) in
  let TOKEN := js_or (env_var env "SIPGATE_TOKEN") (VStr EmptyString) in
  if negb (truthy TOKEN_ID) || negb (truthy TOKEN) then
    Throw (Error "SIPGATE_TOKEN_ID and SIPGATE_TOKEN environment variables are required")
  else Return (TOKEN_ID, TOKEN).

(** ** More vocabulary *)

Definition is_rejection (entry : ProviderCall * (value + string)) : bool :=
  match snd entry with
  | inl _ => false
  | inr _ => true
  end.

(** No call of the log was rejected, except possibly the last one. *)
Definition stops_at_rejection (log : list (ProviderCall * (value + string))) : Prop :=
  exists accepted,
    forallb (fun entry => negb (is_rejection entry)) accepted = true /\
    (log = accepted \/ exists c m, log = (accepted ++ [(c, inr m)])%list).

(** [c] only appends to the call log, and what it appends stops at the
    first rejection. *)
Definition stopping {World A} (c : M World A) : Prop :=
  forall st, exists new,
    calls (snd (c st)) = (calls st ++ new)%list /\ stops_at_rejection new.

(** [debugInfo] of [send_sms]. *)
Definition debug_info (webuserId smsExtension : value) : string :=
  "Debug Info:" ++ newline ++
  "Web User ID: " ++ ToString webuserId ++ newline ++
  "Using SMS Extension: " ++ template (JSON_stringify smsExtension).

(** The [message] that reaches the outer [catch] of the tool handler when a
    provider call of tool [name] was rejected with message [m]: the
    handlers of three tools wrap it in an [McpError] of their own. *)
Definition wrapped {World} `{Host World} (name m : string) : string :=
  if name =? "get_account_info" then
    McpError_message InternalError ("Error getting account info: " ++ m)
  else if name =? "get_phone_numbers" then
    McpError_message InternalError ("Error getting phone numbers: " ++ m)
  else if name =? "send_sms" then
    McpError_message InternalError ("SMS sending failed: " ++ m)
  else m.

(** ** Reads in flight

    The handlers are [async]: a handler runs until its next [await], other
    handlers run while the provider is busy, and the handler goes on when
    the answer arrives.  A [Task] is a handler with its [await]s (and its
    accesses to the cache) made explicit, so that reads can overlap. *)

Inductive Task (A : Type) : Type :=
| Done (a : A)
| Raise (e : exn)
| Await (c : ProviderCall) (k : value + string -> Task A)
| CacheRead (uri : string) (k : slot -> Task A)
| CacheWrite (uri : string) (data : value) (k : Task A).
Arguments Done {A} a.
Arguments Raise {A} e.
Arguments Await {A} c k.
Arguments CacheRead {A} uri k.
Arguments CacheWrite {A} uri data k.

Fixpoint and_then {A B} (t : Task A) (f : A -> Task B) : Task B :=
  match t with
  | Done a => f a
  | Raise e => Raise e
  | Await c k => Await c (fun a => and_then (k a) f)
  | CacheRead uri k => CacheRead uri (fun s => and_then (k s) f)
  | CacheWrite uri data k => CacheWrite uri data (and_then k f)
  end.

(** [try { t } catch (error) { h }] *)
Fixpoint catching {A} (t : Task A) (h : exn -> Task A) : Task A :=
  match t with
  | Done a => Done a
  | Raise e => h e
  | Await c k => Await c (fun a => catching (k a) h)
  | CacheRead uri k => CacheRead uri (fun s => catching (k s) h)
  | CacheWrite uri data k => CacheWrite uri data (catching k h)
  end.

(** [await] of one provider call. *)
Definition await (c : ProviderCall) : Task value :=
  Await c (fun a => match a with
                    | inl v => Done v
                    | inr m => Raise (Error m)
                    end).

(** A read that waits for the provider. *)
Record Pending : Type := {
  reading : string;
  awaited : ProviderCall;
  continue : value + string -> Task Resource.ReadResult
}.

(** The server with reads in flight, and the reads it has answered. *)
Record Server (World : Type) : Type := {
  now : State World;
  pending : list Pending;
  answered : list (string * outcome Resource.ReadResult)
}.
Arguments now {World} _.
Arguments pending {World} _.
Arguments answered {World} _.

(** What happens, one thing at a time: a read request arrives and its
    handler runs up to its first [await]; the provider answers the call
    that the [i]-th read in flight awaits and that handler runs on; a tool
    handler in flight puts a call to the provider (which is all a tool
    handler does to the state of the server). *)
Inductive event : Type :=
| Arrive (uri : string)
| Resume (i : nat)
| ToolStep (c : ProviderCall).

(** Run a task until it awaits the provider or is over. *)
Fixpoint advance {A} (t : Task A) (cache : gmap string value)
  : (outcome A + ProviderCall * (value + string -> Task A)) * gmap string value :=
  match t with
  | Done a => (inl (Return a), cache)
  | Raise e => (inl (Throw e), cache)
  | Await c k => (inr (c, k), cache)
  | CacheRead uri k => advance (k (cache_read cache uri)) cache
  | CacheWrite uri data k => advance k (<[uri := data]> cache)
  end.

(** Some read of [uri] is in flight. *)
Definition in_flight (uri : string) (waiting : list Pending) : Prop :=
  exists p, In p waiting /\ reading p = uri.

(** Every [CacheWrite] of the task is under [uri]. *)
Fixpoint writes_only {A} (uri : string) (t : Task A) : Prop :=
  match t with
  | Done _ | Raise _ => True
  | Await _ k => forall a, writes_only uri (k a)
  | CacheRead _ k => forall s, writes_only uri (k s)
  | CacheWrite u _ k => u = uri /\ writes_only uri k
  end.

(** Every read in flight goes on to write under its own uri only. *)
Definition own_writes (waiting : list Pending) : Prop :=
  forall p, In p waiting -> forall a, writes_only (reading p) (continue p a).

Section Interleaving.
Context {World : Type} `{Host World}.

Definition fetch_steps (uri : string) : Task value :=
  if uri =? "sipgate://account" then
    await (client_get "/account")
  else if uri =? "sipgate://numbers" then
    await numbersModule_getAllNumbers
  else if uri =? "sipgate://history" then
    await (historyModule_fetchAll (VObj [("limit", VNum 20)]))
  else if uri =? "sipgate://devices" then
    and_then (await client_getAuthenticatedWebuserId)
             (fun webuserId => await (devicesModule_getDevices webuserId))
  else
    Raise (McpError InvalidRequest ("Invalid URI: " ++ uri)).

(** The handler of [ReadResourceRequestSchema], step by step. *)
Definition ReadResource_steps (uri : string) : Task Resource.ReadResult :=
  CacheRead uri (fun cached =>
    if slot_truthy cached then
      Done (json_contents uri (slot_stringify cached))
    else
      catching
        (and_then (fetch_steps uri) (fun data =>
           CacheWrite uri data (Done (json_contents uri (JSON_stringify data)))))
        (fun error =>
           Raise (McpError InternalError ("Sipgate API error: " ++ message error)))).

(** A task run with nothing in between. *)
Fixpoint alone {A} (t : Task A) (st : State World) : outcome A * State World :=
  match t with
  | Done a => (Return a, st)
  | Raise e => (Throw e, st)
  | Await c k =>
      let '(a, w) := answer c (world st) in
      alone (k a) {| world := w;
                     calls := (calls st ++ [(c, a)])%list;
                     cachedResources := cachedResources st |}
  | CacheRead uri k => alone (k (cache_read (cachedResources st) uri)) st
  | CacheWrite uri data k =>
      alone k {| world := world st;
                 calls := calls st;
                 cachedResources := <[uri := data]> (cachedResources st) |}
  end.

(** A read has run up to [r]: it is answered, or it joins the reads in
    flight. *)
Definition settle (uri : string)
    (r : outcome Resource.ReadResult
         + ProviderCall * (value + string -> Task Resource.ReadResult))
    (st : State World) (waiting : list Pending)
    (done : list (string * outcome Resource.ReadResult)) : Server World :=
  match r with
  | inl o => {| now := st; pending := waiting; answered := (done ++ [(uri, o)])%list |}
  | inr (c, k) =>
      {| now := st;
         pending := (waiting ++ [{| reading := uri; awaited := c; continue := k |}])%list;
         answered := done |}
  end.

Definition with_cache (st : State World) (cache : gmap string value) : State World :=
  {| world := world st; calls := calls st; cachedResources := cache |}.

(** The provider answers call [c]. *)
Definition provider_answers (c : ProviderCall) (st : State World)
  : (value + string) * State World :=
  let '(a, w) := answer c (world st) in
  (a, {| world := w;
         calls := (calls st ++ [(c, a)])%list;
         cachedResources := cachedResources st |}).

Definition react (e : event) (S : Server World) : Server World :=
  match e with
  | Arrive uri =>
      let '(r, cache) := advance (ReadResource_steps uri) (cachedResources (now S)) in
      settle uri r (with_cache (now S) cache) (pending S) (answered S)
  | Resume i =>
      match pending S !! i with
      | None => S
      | Some p =>
          let '(a, st) := provider_answers (awaited p) (now S) in
          let '(r, cache) := advance (continue p a) (cachedResources st) in
          settle (reading p) r (with_cache st cache) (delete i (pending S)) (answered S)
      end
  | ToolStep c =>
      {| now := snd (provider_answers c (now S));
         pending := pending S;
         answered := answered S |}
  end.

Fixpoint happen (events : list event) (S : Server World) : Server World :=
  match events with
  | [] => S
  | e :: rest => happen rest (react e S)
  end.

(** A fresh server with nothing in flight. *)
Definition fresh_server (w : World) : Server World :=
  {| now := start w; pending := []; answered := [] |}.
End Interleaving.

Section Properties.
Context {World : Type} `{Host World}.
Local Open Scope handler_scope.

(** *** The call log *)

Lemma made_app (st st' : State World) new :
  calls st' = (calls st ++ new)%list -> made st st' = new.
Proof.
  intros E. unfold made. rewrite E.
  rewrite skipn_app, skipn_all, Nat.sub_diag. reflexivity.
Qed.

Lemma rejected_app l1 l2 : rejected (l1 ++ l2)%list -> rejected l1 \/ rejected l2.
Proof.
  intros (c & m & Hin). apply in_app_or in Hin as [Hin | Hin];
    [left | right]; exists c, m; exact Hin.
Qed.

Lemma rejected_nil : ~ rejected [].
Proof. intros (c & m & []). Qed.

(** *** Rules for [guarded] and [quiet] *)

Lemma quiet_guarded {A} (ok ok' : A -> Prop) (c : M World A) :
  quiet ok c -> guarded ok' c.
Proof.
  intros Hq st. destruct (Hq st) as (Hc & Hk & _).
  exists []. rewrite app_nil_r. repeat split; try assumption.
  intros Hr. destruct (rejected_nil Hr).
Qed.

Lemma quiet_ret {A} (ok : A -> Prop) (a : A) : ok a -> quiet (World := World) ok (ret a).
Proof. intros Ha st. repeat split. exact Ha. Qed.

Lemma quiet_throw {A} (ok : A -> Prop) e : quiet (World := World) ok (throw e).
Proof. intros st. repeat split. Qed.

Lemma quiet_lift {A} (o : outcome A) : quiet (World := World) (fun _ => True) (lift o).
Proof. intros st. repeat split. simpl. destruct o; exact I. Qed.

Lemma guarded_call c : guarded never (call c).
Proof.
  intros st. unfold call. destruct (answer c (world st)) as [[v | m] w] eqn:E.
  - exists [(c, inl v)]. simpl. repeat split.
    intros (c' & m' & [Hin | []]). discriminate Hin.
  - exists [(c, inr m)]. simpl. repeat split.
Qed.

Lemma guarded_bind {A B} (ok : B -> Prop) (c : M World A) (k : A -> M World B) :
  guarded never c -> (forall a, guarded ok (k a)) -> guarded ok (bind c k).
Proof.
  intros Hc Hk st. unfold bind.
  destruct (Hc st) as (new1 & E1 & K1 & R1).
  destruct (c st) as [[a | e] st1]; simpl in *.
  - destruct (Hk a st1) as (new2 & E2 & K2 & R2).
    exists (new1 ++ new2)%list. rewrite E2, E1, K2, K1, app_assoc. repeat split.
    intros R. apply rejected_app in R as [R | R].
    + destruct (R1 R).
    + exact (R2 R).
  - exists new1. repeat split; assumption.
Qed.

Lemma guarded_try_catch {A} (ok : A -> Prop) (body : M World A) handler :
  guarded ok body -> (forall e, quiet ok (handler e)) ->
  guarded ok (try_catch body handler).
Proof.
  intros Hb Hh st. unfold try_catch.
  destruct (Hb st) as (new & E & K & R).
  destruct (body st) as [[a | e] st1]; simpl in *.
  - exists new. repeat split; assumption.
  - destruct (Hh e st1) as (E2 & K2 & O2).
    exists new. rewrite E2, K2. repeat split; try assumption.
    intros _. exact O2.
Qed.

Lemma guarded_if {A} (ok : A -> Prop) (b : bool) (c1 c2 : M World A) :
  guarded ok c1 -> guarded ok c2 -> guarded ok (if b then c1 else c2).
Proof. destruct b; auto. Qed.

Lemma guarded_lift {A} (ok : A -> Prop) (o : outcome A) : guarded (World := World) ok (lift o).
Proof. eapply quiet_guarded, quiet_lift. Qed.

Lemma guarded_ret {A} (ok : A -> Prop) (a : A) : guarded (World := World) ok (ret a).
Proof. apply (quiet_guarded (fun _ => True)), quiet_ret. exact I. Qed.

Lemma guarded_throw {A} (ok : A -> Prop) e : guarded (World := World) (A := A) ok (throw e).
Proof. apply (quiet_guarded ok), quiet_throw. Qed.

Lemma guarded_missing (ok : bool -> Prop) args a b :
  guarded (World := World) ok (missing args a b).
Proof.
  unfold missing. apply guarded_bind; [apply guarded_lift | intros x].
  apply guarded_if; [| apply guarded_ret].
  apply guarded_bind; [apply guarded_lift | intros y; apply guarded_ret].
Qed.

Lemma failure_is_error t : error_envelope (failure t) <-> t <> EmptyString.
Proof.
  unfold error_envelope, failure, text_content. simpl. split.
  - intros (_ & t' & E & Hne). congruence.
  - intros Hne. split; [reflexivity | exists t; auto].
Qed.

Lemma prefixed_not_empty (c : ascii) (p s : string) : String c p ++ s <> EmptyString.
Proof. discriminate. Qed.

Ltac guard_step :=
  first
    [ apply guarded_call
    | apply guarded_ret
    | apply guarded_throw
    | apply guarded_lift
    | apply guarded_missing
    | apply guarded_if
    | apply guarded_bind; [ | intros ? ]
    | apply guarded_try_catch; [ | intros ? ]
    | apply quiet_throw
    | apply quiet_ret, failure_is_error; cbn; discriminate ].

Ltac discharge_guarded := cbv zeta; repeat (guard_step; cbv zeta).

(** *** Every tool reports a rejected provider call *)

Lemma guarded_get_account_info : guarded error_envelope get_account_info.
Proof. unfold get_account_info. discharge_guarded. Qed.

Lemma guarded_get_phone_numbers : guarded error_envelope get_phone_numbers.
Proof. unfold get_phone_numbers. discharge_guarded. Qed.

Lemma guarded_send_sms args : guarded error_envelope (send_sms args).
Proof. unfold send_sms. discharge_guarded. Qed.

Lemma guarded_initiate_call args : guarded error_envelope (initiate_call args).
Proof. unfold initiate_call. discharge_guarded. Qed.

Lemma guarded_get_call_history args : guarded error_envelope (get_call_history args).
Proof. unfold get_call_history. discharge_guarded. Qed.

Lemma guarded_get_user_info : guarded error_envelope get_user_info.
Proof. unfold get_user_info. discharge_guarded. Qed.

Lemma guarded_get_devices : guarded error_envelope get_devices.
Proof. unfold get_devices. discharge_guarded. Qed.

Lemma guarded_tool_switch name args : guarded error_envelope (tool_switch name args).
Proof.
  unfold tool_switch.
  repeat (apply guarded_if;
          [ first [ apply guarded_get_account_info | apply guarded_get_phone_numbers
                  | apply guarded_send_sms | apply guarded_initiate_call
                  | apply guarded_get_call_history | apply guarded_get_user_info
                  | apply guarded_get_devices ] | ]).
  apply guarded_throw.
Qed.

(** The outer [catch] leaves nothing to throw. *)
Lemma CallTool_returns name args (st : State World) :
  exists env, fst (CallTool name args st) = Return env.
Proof.
  unfold CallTool, try_catch.
  destruct (tool_switch name args st) as [[env | e] st1]; simpl; eauto.
Qed.

(** C1: whenever the tool's handler throws, or a provider call it made is
    rejected, the handler of [CallToolRequestSchema] does not throw: it
    returns an envelope with [isError: true] and a non-empty text; an
    exception that reaches the outer [catch] is reported as
    ["Sipgate API error: "] followed by its message. *)
Theorem CallTool_outer_boundary name args (st : State World) :
  (exists e, fst (tool_switch name args st) = Throw e) \/
  rejected (made st (snd (CallTool name args st))) ->
  exists env,
    fst (CallTool name args st) = Return env /\
    error_envelope env /\
    (forall e, fst (tool_switch name args st) = Throw e ->
               env = failure ("Sipgate API error: " ++ message e)).
Proof.
  intros Hfail.
  destruct (guarded_tool_switch name args st) as (new & E & _ & R).
  unfold CallTool, try_catch in *.
  destruct (tool_switch name args st) as [[env | e] st1] eqn:Hsw; simpl in *.
  - exists env. split; [reflexivity |]. split.
    + destruct Hfail as [[e He] | Hrej]; [discriminate He |].
      apply R. rewrite (made_app _ _ _ E) in Hrej. exact Hrej.
    + intros e He. discriminate He.
  - eexists. split; [reflexivity |]. split.
    + apply failure_is_error. discriminate.
    + intros e' He'. congruence.
Qed.

(** *** The resource handler *)

Lemma skipn_length_app {A} (l new : list A) : skipn (List.length l) (l ++ new)%list = new.
Proof. rewrite skipn_app, skipn_all, Nat.sub_diag. reflexivity. Qed.

Lemma made_nil (st st' : State World) : calls st' = calls st -> made st st' = [].
Proof. intros E. apply made_app. rewrite E, app_nil_r. reflexivity. Qed.

Ltac log_since :=
  unfold made; cbn [calls snd fst];
  repeat rewrite <- app_assoc; cbn [app];
  rewrite ?skipn_length_app, ?skipn_all.

Lemma known_uri uri :
  In uri resource_uris <->
  uri = "sipgate://account" \/ uri = "sipgate://numbers" \/
  uri = "sipgate://history" \/ uri = "sipgate://devices".
Proof.
  cbn. split.
  - intros [E | [E | [E | [E | []]]]]; subst; auto.
  - intros [E | [E | [E | E]]]; subst; auto.
Qed.

Lemma guarded_fetch uri : guarded never (fetch uri).
Proof. unfold fetch. discharge_guarded. Qed.

(** [fetch] returns only for the four known uris. *)
Lemma fetch_returns_known uri (st : State World) data :
  fst (fetch uri st) = Return data -> In uri resource_uris.
Proof.
  unfold fetch. rewrite known_uri.
  destruct (uri =? "sipgate://account") eqn:E1; [apply String.eqb_eq in E1; auto |].
  destruct (uri =? "sipgate://numbers") eqn:E2; [apply String.eqb_eq in E2; auto |].
  destruct (uri =? "sipgate://history") eqn:E3; [apply String.eqb_eq in E3; auto |].
  destruct (uri =? "sipgate://devices") eqn:E4; [apply String.eqb_eq in E4; auto |].
  discriminate.
Qed.

(** A rejected provider call makes [fetch] throw the provider's [Error]. *)
Lemma fetch_rejected uri (st : State World) c m :
  In (c, inr m) (made st (snd (fetch uri st))) ->
  fst (fetch uri st) = Throw (Error m).
Proof.
  unfold fetch, bind, call, throw.
  repeat match goal with
         | |- context [if ?b then _ else _] => destruct b
         end;
    repeat match goal with
           | |- context [answer ?q ?w] => destruct (answer q w) as [[? | ?] ?]
           end;
    log_since; cbn; intros Hin;
    repeat match goal with
           | Hin : _ \/ _ |- _ => destruct Hin as [Hin | Hin]
           | Hin : False |- _ => destruct Hin
           | Hin : (_, _) = (_, _) |- _ => inversion Hin; subst; clear Hin
           end;
    reflexivity.
Qed.

Lemma ReadResource_hit uri (st : State World) v :
  cachedResources st !! uri = Some v -> truthy v = true ->
  ReadResource uri st = (Return (json_contents uri (JSON_stringify v)), st).
Proof.
  intros Hc Ht. unfold ReadResource, bind, read_cache, cache_read.
  rewrite Hc. cbn. rewrite Ht. reflexivity.
Qed.

(** What a read does to the cache: nothing, or one store under its own,
    known, uri. *)
Lemma ReadResource_cache uri (st : State World) :
  cachedResources (snd (ReadResource uri st)) = cachedResources st \/
  (In uri resource_uris /\
   exists data,
     cachedResources (snd (ReadResource uri st)) = <[uri := data]> (cachedResources st)).
Proof.
  unfold ReadResource, bind, read_cache, try_catch. cbn.
  destruct (slot_truthy _); [left; reflexivity |].
  destruct (guarded_fetch uri st) as (new & _ & K & _).
  pose proof (fetch_returns_known uri st) as Hk.
  destruct (fetch uri st) as [[data | e] st1]; cbn in *.
  - right. split; [eauto |]. exists data. rewrite K. reflexivity.
  - left. exact K.
Qed.

Lemma CallTool_cache name args (st : State World) :
  cachedResources (snd (CallTool name args st)) = cachedResources st.
Proof.
  destruct (guarded_tool_switch name args st) as (new & _ & K & _).
  unfold CallTool, try_catch.
  destruct (tool_switch name args st) as [[env | e] st1]; exact K.
Qed.

Lemma handle_keeps_entry request (st : State World) uri v :
  cachedResources st !! uri = Some v -> truthy v = true ->
  cachedResources (snd (handle request st)) !! uri = Some v.
Proof.
  intros Hc Ht. destruct request as [| uri' | | name args]; cbn; try exact Hc.
  - unfold bind.
    destruct (String.eqb_spec uri' uri) as [-> | Hne].
    + rewrite (ReadResource_hit uri st v Hc Ht). exact Hc.
    + destruct (ReadResource_cache uri' st) as [E | (_ & data & E)];
        destruct (ReadResource uri' st) as [[r | e] st1]; cbn in *; rewrite E;
        try exact Hc; rewrite lookup_insert_ne; auto.
  - unfold bind. pose proof (CallTool_cache name args st) as E.
    destruct (CallTool name args st) as [[r | e] st1]; cbn in *; rewrite E; exact Hc.
Qed.

Lemma serve_keeps_entry requests (st : State World) uri v :
  cachedResources st !! uri = Some v -> truthy v = true ->
  cachedResources (serve requests st) !! uri = Some v.
Proof.
  revert st. induction requests as [| request rest IH]; intros st Hc Ht; cbn.
  - exact Hc.
  - apply IH; [apply handle_keeps_entry |]; assumption.
Qed.

(** When requests are handled one after the other: once a truthy value is
    cached for a uri, then after any further requests a read of that uri
    returns the cached value's JSON text and leaves the whole server state
    as it was: no provider call, no change to the cache. *)
Theorem cached_truthy_entry_is_final requests (st : State World) uri v :
  cachedResources st !! uri = Some v ->
  truthy v = true ->
  ReadResource uri (serve requests st)
  = (Return (json_contents uri (JSON_stringify v)), serve requests st).
Proof.
  intros Hc Ht. apply ReadResource_hit; [| exact Ht].
  apply serve_keeps_entry; assumption.
Qed.

(** When requests are handled one after the other: the text of a read that
    left a truthy value in the cache is the text of every later read of
    that uri, whatever requests come between and whatever the provider
    would answer by then. *)
Lemma ReadResource_twice requests uri (st : State World) r v :
  fst (ReadResource uri st) = Return r ->
  cachedResources (snd (ReadResource uri st)) !! uri = Some v ->
  truthy v = true ->
  ReadResource uri (serve requests (snd (ReadResource uri st)))
  = (Return r, serve requests (snd (ReadResource uri st))).
Proof.
  intros Hr Hc Ht.
  assert (E : r = json_contents uri (JSON_stringify v)).
  { revert Hr Hc.
    unfold ReadResource, bind, read_cache, try_catch, cache_read, write_cache, ret.
    cbn [fst snd].
    destruct (cachedResources st !! uri) as [v0 |] eqn:E0;
      [cbn [slot_truthy]; destruct (truthy v0) | destruct (slot_truthy (inherited uri))];
      cbn [fst snd cachedResources slot_stringify].
    - intros Hr Hc. congruence.
    - destruct (fetch uri st) as [[data | e] st1]; cbn; [| discriminate].
      rewrite lookup_insert_eq. intros Hr Hc. congruence.
    - intros _ Hc. congruence.
    - destruct (fetch uri st) as [[data | e] st1]; cbn; [| discriminate].
      rewrite lookup_insert_eq. intros Hr Hc. congruence. }
  subst r. apply ReadResource_hit; [| exact Ht].
  apply serve_keeps_entry; assumption.
Qed.

(** Only known uris are ever cached. *)
Lemma handle_caches_known request (st : State World) :
  (forall uri, cachedResources st !! uri <> None -> In uri resource_uris) ->
  forall uri, cachedResources (snd (handle request st)) !! uri <> None ->
              In uri resource_uris.
Proof.
  intros Inv uri. destruct request as [| uri' | | name args]; cbn; try apply Inv.
  - unfold bind.
    destruct (ReadResource_cache uri' st) as [E | (Hk & data & E)];
      destruct (ReadResource uri' st) as [[r | e] st1]; cbn in *; rewrite E;
      try apply Inv;
      (destruct (String.eqb_spec uri' uri) as [-> | Hne];
       [intros _; exact Hk | rewrite lookup_insert_ne by exact Hne; apply Inv]).
  - unfold bind. pose proof (CallTool_cache name args st) as E.
    destruct (CallTool name args st) as [[r | e] st1]; cbn in *; rewrite E; apply Inv.
Qed.

Lemma serve_caches_known requests (st : State World) :
  (forall uri, cachedResources st !! uri <> None -> In uri resource_uris) ->
  forall uri, cachedResources (serve requests st) !! uri <> None ->
              In uri resource_uris.
Proof.
  revert st. induction requests as [| request rest IH]; intros st Inv; cbn.
  - exact Inv.
  - apply IH, handle_caches_known, Inv.
Qed.

(** C4: in every state the server can reach, a read of a uri outside the
    four descriptors (and not the name of a property of [Object.prototype])
    makes no provider call and leaves the state alone, but the
    [InvalidRequest] error thrown for it is caught by the handler's own
    [catch] and rethrown as an [InternalError]. *)
Theorem ReadResource_unknown_uri requests (w : World) uri :
  ~ In uri resource_uris ->
  inherited uri = Data VUndefined ->
  ReadResource uri (serve requests (start w))
  = (Throw (McpError InternalError
              ("Sipgate API error: " ++
               McpError_message InvalidRequest ("Invalid URI: " ++ uri))),
     serve requests (start w)).
Proof.
  intros Hu Hi.
  assert (Hnone : cachedResources (serve requests (start w)) !! uri = None).
  { destruct (cachedResources (serve requests (start w)) !! uri) eqn:E; [| reflexivity].
    destruct Hu. apply (serve_caches_known requests (start w)).
    - intros u. cbn. rewrite lookup_empty. congruence.
    - rewrite E. discriminate. }
  rewrite known_uri in Hu.
  unfold ReadResource, bind, read_cache, cache_read, try_catch, fetch.
  rewrite Hnone, Hi. cbn.
  destruct (String.eqb_spec uri "sipgate://account"); [tauto |].
  destruct (String.eqb_spec uri "sipgate://numbers"); [tauto |].
  destruct (String.eqb_spec uri "sipgate://history"); [tauto |].
  destruct (String.eqb_spec uri "sipgate://devices"); [tauto |].
  reflexivity.
Qed.

(** C9: when a provider call made by a read (of a known uri: no other read
    makes one) is rejected, the read throws an
    [InternalError] whose message is ["Sipgate API error: "] followed by the
    provider's message, and the cache is what it was before the read. *)
Theorem ReadResource_provider_failure uri (st : State World) c m :
  In (c, inr m) (made st (snd (ReadResource uri st))) ->
  fst (ReadResource uri st)
  = Throw (McpError InternalError ("Sipgate API error: " ++ m)) /\
  cachedResources (snd (ReadResource uri st)) = cachedResources st.
Proof.
  unfold ReadResource, bind, read_cache, try_catch. cbn.
  destruct (slot_truthy _).
  - cbn. rewrite made_nil by reflexivity. intros [].
  - pose proof (fetch_rejected uri st c m) as Hrej.
    destruct (guarded_fetch uri st) as (new & E & K & _).
    destruct (fetch uri st) as [[data | e] st1]; cbn in *.
    + intros Hin. unfold made in *. cbn in *. specialize (Hrej Hin). discriminate Hrej.
    + intros Hin. specialize (Hrej Hin). inversion Hrej; subst. split; [reflexivity | exact K].
Qed.

(** *** [send_sms] *)

Lemma CallTool_state name args (st : State World) :
  snd (CallTool name args st) = snd (tool_switch name args st).
Proof.
  unfold CallTool, try_catch.
  destruct (tool_switch name args st) as [[env | e] st1]; reflexivity.
Qed.

Lemma replace_whitespace_returns expr x to :
  replace_whitespace expr x = Return to ->
  exists s, x = VStr s /\ to = VStr (strip_whitespace s).
Proof. destruct x; cbn; intros E; inversion E; eauto. Qed.

Ltac break_match :=
  match goal with
  | |- context [match ?x with _ => _ end] =>
      lazymatch x with
      | context [match _ with _ => _ end] => fail
      | _ => destruct x eqn:?
      end
  end.

Ltac reduce := cbv beta iota zeta; cbn [world calls cachedResources fst snd].

Ltac run := reduce; repeat (break_match; reduce).

Ltac in_log :=
  repeat match goal with
         | Hin : In _ (_ :: _) |- _ => destruct Hin as [Hin | Hin]
         | Hin : In _ [] |- _ => destruct Hin
         | Hin : (_, _) = (_, _) |- _ => inversion Hin; subst; clear Hin
         end.

Lemma send_sms_sends args (st : State World) data a :
  In (smsModule_send data, a) (made st (snd (send_sms args st))) ->
  exists recipient text webuserId response items smsExtension id,
    property args "recipient" = Return (VStr recipient) /\
    property args "message" = Return text /\
    made st (snd (send_sms args st))
    = [(client_getAuthenticatedWebuserId, inl webuserId);
       (client_get ("/" ++ ToString webuserId ++ "/sms"), inl response);
       (smsModule_send data, a)] /\
    property response "items" = Return items /\
    element0 (js_or items (VArr [])) = Return smsExtension /\
    property smsExtension "id" = Return id /\
    data = VObj [("smsId", id); ("to", VStr (strip_whitespace recipient)); ("message", text)].
Proof.
  unfold send_sms, missing, try_catch, bind, lift, call, ret, throw.
  run; log_since; intros Hin; in_log.
  all: match goal with
       | E : replace_whitespace _ _ = Return _ |- _ =>
           apply replace_whitespace_returns in E as (r & -> & ->)
       end.
  all: do 7 eexists; repeat split; eassumption.
Qed.

Lemma tool_switch_send_sms args :
  tool_switch (World := World) "send_sms" args = send_sms args.
Proof. reflexivity. Qed.

Lemma first_of_list first rest :
  js_or (VArr (first :: rest)) (VArr []) = VArr (first :: rest) /\
  element0 (VArr (first :: rest)) = Return first /\
  exists n, property (VArr (first :: rest)) "length" = Return (VNum n) /\ is_zero (VNum n) = false.
Proof.
  repeat split. eexists. split; [reflexivity |].
  cbn [is_zero]. apply Z.eqb_neq. cbn [List.length]. lia.
Qed.

Ltac same_items :=
  match goal with
  | E1 : property ?r "items" = Return ?x, E2 : property ?r "items" = Return ?y |- _ =>
      assert (x = y) by congruence; subst x; clear E1
  end.

Lemma send_sms_no_extensions args (st : State World) path response items :
  In (client_get path, inl response) (made st (snd (send_sms args st))) ->
  property response "items" = Return items ->
  js_or items (VArr []) = VArr [] ->
  fst (send_sms args st)
  = Throw (McpError InternalError
             ("SMS sending failed: " ++
              McpError_message InternalError
                "No SMS extensions available for this account")) /\
  exists webuserId,
    made st (snd (send_sms args st))
    = [(client_getAuthenticatedWebuserId, inl webuserId);
       (client_get path, inl response)].
Proof.
  unfold send_sms, missing, try_catch, bind, lift, call, ret, throw.
  run; log_since; intros Hin Hitems Hempty; in_log.
  all: try congruence.
  all: same_items; rewrite Hempty in *.
  all: match goal with
       | E : property (VArr []) "length" = _ |- _ => cbn in E; inversion E; subst
       end.
  all: match goal with
       | E : is_zero (VNum _) = _ |- _ => cbn in E; try discriminate E
       end.
  all: cbn [message]; split; [reflexivity | eexists; reflexivity].
Qed.

Lemma send_sms_with_extensions args (st : State World) path response first rest id recipient :
  In (client_get path, inl response) (made st (snd (send_sms args st))) ->
  property response "items" = Return (VArr (first :: rest)) ->
  property first "id" = Return id ->
  property args "recipient" = Return (VStr recipient) ->
  exists data a, In (smsModule_send data, a) (made st (snd (send_sms args st))).
Proof.
  unfold send_sms, missing, try_catch, bind, lift, call, ret, throw.
  run; log_since; intros Hin Hitems Hid Hrec; in_log.
  all: try congruence.
  all: same_items.
  all: destruct (first_of_list first rest) as (Eor & Eel & n & Elen & Ez);
    rewrite Eor in *; inversion Hrec; subst.
  all: repeat match goal with
              | E : property (VArr (_ :: _)) "length" = Return ?x |- _ =>
                  is_var x; rewrite Elen in E; inversion E; subst x
              | E : property (VArr (_ :: _)) "length" = Throw _ |- _ =>
                  rewrite Elen in E; discriminate E
              | E : element0 (VArr (_ :: _)) = Return ?x |- _ =>
                  is_var x; rewrite Eel in E; inversion E; subst x
              | E : element0 (VArr (_ :: _)) = Throw _ |- _ =>
                  rewrite Eel in E; discriminate E
              | E : replace_whitespace _ (VStr _) = Throw _ |- _ =>
                  cbn in E; discriminate E
              end.
  all: try congruence.
  all: do 2 eexists; right; right; left; reflexivity.
Qed.

(** C7: in a [send_sms] call whose request for the user's SMS extensions
    was answered with [items], whatever the arguments (so whatever [smsId]
    the caller supplied): when [items] is a non-empty list, every SMS handed
    to the provider carries the [id] of the first entry as its [smsId], and
    one is handed over as soon as that entry has an [id] to read and the
    recipient is a string; when [items] is empty or absent, the handler
    throws an [InternalError], the call ends in an error envelope, and no
    SMS is handed to the provider. *)
Theorem send_sms_first_extension args (st : State World) path response items :
  In (client_get path, inl response) (made st (snd (CallTool "send_sms" args st))) ->
  property response "items" = Return items ->
  (forall first rest, items = VArr (first :: rest) ->
     (forall data a,
        In (smsModule_send data, a) (made st (snd (CallTool "send_sms" args st))) ->
        exists id, property first "id" = Return id /\ property data "smsId" = Return id) /\
     (forall id recipient,
        property first "id" = Return id ->
        property args "recipient" = Return (VStr recipient) ->
        exists data a,
          In (smsModule_send data, a) (made st (snd (CallTool "send_sms" args st))))) /\
  (js_or items (VArr []) = VArr [] ->
   fst (tool_switch "send_sms" args st)
   = Throw (McpError InternalError
              ("SMS sending failed: " ++
               McpError_message InternalError
                 "No SMS extensions available for this account")) /\
   (exists env, fst (CallTool "send_sms" args st) = Return env /\ error_envelope env) /\
   forall data a,
     ~ In (smsModule_send data, a) (made st (snd (CallTool "send_sms" args st)))).
Proof.
  rewrite CallTool_state, tool_switch_send_sms. intros Hget Hitems. split.
  - intros first rest ->. split.
    + intros data a Hsend.
      destruct (send_sms_sends args st data a Hsend)
        as (r & text & webuserId & response' & items' & ext & id
            & _ & _ & Hlog & Hitems' & Hel & Hid & ->).
      rewrite Hlog in Hget. in_log.
      assert (items' = VArr (first :: rest)) by congruence. subst items'.
      destruct (first_of_list first rest) as (Eor & Eel & _).
      rewrite Eor, Eel in Hel. inversion Hel; subst ext.
      exists id. split; [exact Hid | reflexivity].
    + intros id recipient Hid Hrec.
      eapply send_sms_with_extensions; eassumption.
  - intros Hempty.
    destruct (send_sms_no_extensions args st path response items Hget Hitems Hempty)
      as (Hthrow & webuserId & Hlog).
    split; [exact Hthrow |]. split.
    + unfold CallTool, try_catch. rewrite tool_switch_send_sms.
      destruct (send_sms args st) as [[env | e] st1]; cbn in *; [discriminate Hthrow |].
      eexists. split; [reflexivity |]. apply failure_is_error. discriminate.
    + intros data a Hsend. rewrite Hlog in Hsend. in_log.
Qed.

Lemma strip_whitespace_filter s :
  list_ascii_of_string (strip_whitespace s)
  = filter (fun c => negb (is_whitespace c)) (list_ascii_of_string s).
Proof.
  induction s as [| c s IH]; cbn; [reflexivity |].
  destruct (is_whitespace c); cbn; rewrite IH; reflexivity.
Qed.

(** C8: whatever [send_sms] hands to the provider, its [to] is the caller's
    recipient string with every whitespace character removed and every
    other character kept in place. *)
Theorem send_sms_strips_whitespace args (st : State World) data a :
  In (smsModule_send data, a) (made st (snd (CallTool "send_sms" args st))) ->
  exists recipient,
    property args "recipient" = Return (VStr recipient) /\
    property data "to" = Return (VStr (strip_whitespace recipient)) /\
    list_ascii_of_string (strip_whitespace recipient)
    = filter (fun c => negb (is_whitespace c)) (list_ascii_of_string recipient).
Proof.
  rewrite CallTool_state, tool_switch_send_sms. intros Hsend.
  destruct (send_sms_sends args st data a Hsend)
    as (r & text & webuserId & response & items & ext & id
        & Hr & _ & _ & _ & _ & _ & ->).
  exists r. split; [exact Hr |]. split; [reflexivity | apply strip_whitespace_filter].
Qed.

(** *** Malformed tool calls *)

Lemma unknown_tool name :
  ~ In name tool_names ->
  forall args, tool_switch (World := World) name args
               = throw (McpError MethodNotFound ("Unknown tool: " ++ name)).
Proof.
  intros Hn args. unfold tool_switch. cbn in Hn.
  repeat match goal with
         | |- context [name =? ?t] =>
             destruct (String.eqb_spec name t); [subst; tauto |]
         end.
  reflexivity.
Qed.

Lemma missing_argument fields a b (st : State World) :
  truthy (lookup_field a fields) = false \/ truthy (lookup_field b fields) = false ->
  missing (VObj fields) a b st = (Return true, st).
Proof.
  unfold missing, bind, lift, ret. cbn.
  intros [E | E]; [rewrite E; reflexivity |].
  destruct (truthy (lookup_field a fields)); [rewrite E |]; reflexivity.
Qed.

(** C2: for a malformed tool call the [switch] throws an [McpError]
    ([MethodNotFound] for an unknown name, [InvalidParams] for
    [initiate_call], an [InternalError] around the [InvalidParams] for
    [send_sms]) before any provider call, but the handler does not let it
    through: it returns an error envelope and leaves the state alone. *)
Theorem CallTool_malformed_request name args (st : State World) :
  malformed name args ->
  exists code m,
    fst (tool_switch name args st) = Throw (McpError code m) /\
    CallTool name args st
    = (Return (failure ("Sipgate API error: " ++ McpError_message code m)), st) /\
    (~ In name tool_names -> code = MethodNotFound) /\
    (name = "initiate_call" -> code = InvalidParams) /\
    (name = "send_sms" -> code = InternalError).
Proof.
  intros [Hn | (fields & -> & [[-> Hm] | [-> Hm]])].
  - exists MethodNotFound, ("Unknown tool: " ++ name).
    unfold CallTool, try_catch. rewrite (unknown_tool name Hn). cbn.
    repeat split; intros ->; destruct Hn; cbn; tauto.
  - exists InvalidParams, "Missing required parameters: from and to are required".
    unfold CallTool, try_catch.
    change (tool_switch "initiate_call" (VObj fields)) with (initiate_call (VObj fields)).
    unfold initiate_call, bind. rewrite (missing_argument _ _ _ _ Hm). cbn.
    repeat split; try discriminate. intros Hn. destruct Hn. cbn. tauto.
  - exists InternalError,
      ("SMS sending failed: " ++
       McpError_message InvalidParams
         "Missing required parameters: recipient and message are required").
    unfold CallTool, try_catch.
    change (tool_switch "send_sms" (VObj fields)) with (send_sms (VObj fields)).
    unfold send_sms, try_catch, bind. rewrite (missing_argument _ _ _ _ Hm). cbn.
    repeat split; try discriminate. intros Hn. destruct Hn. cbn. tauto.
Qed.

(** *** [get_call_history] *)

(** Called with an arguments object that has neither [limit] nor
    [types], [get_call_history] makes exactly one provider call,
    [fetchAll] with limit 10 and the four types CALL, VOICEMAIL, FAX, SMS,
    and when the provider answers with a list of entries the call succeeds
    with that list as JSON text. *)
Theorem get_call_history_defaults fields (st : State World) :
  lookup_field "limit" fields = VUndefined ->
  lookup_field "types" fields = VUndefined ->
  made st (snd (CallTool "get_call_history" (VObj fields) st))
  = [(historyModule_fetchAll default_filter,
      fst (answer (historyModule_fetchAll default_filter) (world st)))] /\
  forall history,
    fst (answer (historyModule_fetchAll default_filter) (world st)) = inl (VArr history) ->
    fst (CallTool "get_call_history" (VObj fields) st)
    = Return (success (JSON_stringify (VArr history))).
Proof.
  intros Hl Ht. unfold CallTool, try_catch.
  change (tool_switch "get_call_history" (VObj fields))
    with (get_call_history (VObj fields)).
  unfold get_call_history, bind, lift, call, ret. cbn [property].
  rewrite Hl, Ht. cbn [js_or truthy]. fold default_filter.
  destruct (answer (historyModule_fetchAll default_filter) (world st))
    as [[history | m] w] eqn:E; cbn [fst snd]; log_since.
  - split; [reflexivity |]. intros h Hh. inversion Hh; subst. reflexivity.
  - split; [reflexivity |]. intros h Hh. discriminate Hh.
Qed.

(** *** Within one request, nothing follows a rejected provider call *)

Lemma stops_nil : stops_at_rejection [].
Proof. exists []. split; [reflexivity | left; reflexivity]. Qed.

Lemma accepted_not_rejected accepted :
  forallb (fun entry => negb (is_rejection entry)) accepted = true -> ~ rejected accepted.
Proof.
  intros Hall (c & m & Hin).
  rewrite forallb_forall in Hall. specialize (Hall _ Hin). discriminate Hall.
Qed.

Lemma quiet_stopping {A} (ok : A -> Prop) (c : M World A) : quiet ok c -> stopping c.
Proof.
  intros Hq st. destruct (Hq st) as (Hc & _). exists []. rewrite app_nil_r.
  split; [exact Hc | apply stops_nil].
Qed.

Lemma stopping_call c : stopping (call c).
Proof.
  intros st. unfold call. destruct (answer c (world st)) as [[v | m] w]; cbn.
  - exists [(c, inl v)]. split; [reflexivity |].
    exists [(c, inl v)]. split; [reflexivity | left; reflexivity].
  - exists [(c, inr m)]. split; [reflexivity |].
    exists []. split; [reflexivity | right; exists c, m; reflexivity].
Qed.

Lemma stopping_bind {A B} (c : M World A) (k : A -> M World B) :
  guarded never c -> stopping c -> (forall a, stopping (k a)) -> stopping (bind c k).
Proof.
  intros Hg Hc Hk st. unfold bind.
  destruct (Hg st) as (new1 & E1 & _ & R1).
  destruct (Hc st) as (new1' & E1' & S1).
  assert (new1' = new1) by (rewrite E1 in E1'; eapply app_inv_head; eauto). subst new1'.
  destruct (c st) as [[a | e] st1]; cbn in *.
  - destruct (Hk a st1) as (new2 & E2 & (acc2 & A2 & S2)).
    exists (new1 ++ new2)%list. rewrite E2, E1, app_assoc. split; [reflexivity |].
    destruct S1 as (acc1 & A1 & [-> | (c1 & m1 & ->)]).
    + exists (acc1 ++ acc2)%list. rewrite forallb_app, A1, A2. split; [reflexivity |].
      destruct S2 as [-> | (c2 & m2 & ->)]; [left; reflexivity |].
      right. exists c2, m2. rewrite app_assoc. reflexivity.
    + destruct R1. exists c1, m1. apply in_or_app. right. left. reflexivity.
  - exists new1. split; assumption.
Qed.

Lemma stopping_bind_quiet {A B} (ok : B -> Prop) (c : M World A) (k : A -> M World B) :
  stopping c -> (forall a, quiet ok (k a)) -> stopping (bind c k).
Proof.
  intros Hc Hk st. unfold bind.
  destruct (Hc st) as (new & E & S).
  destruct (c st) as [[a | e] st1]; cbn in *.
  - destruct (Hk a st1) as (E2 & _). exists new. rewrite E2. split; assumption.
  - exists new. split; assumption.
Qed.

Lemma stopping_try_catch {A} (ok : A -> Prop) (body : M World A) handler :
  stopping body -> (forall e, quiet ok (handler e)) -> stopping (try_catch body handler).
Proof.
  intros Hb Hh st. unfold try_catch.
  destruct (Hb st) as (new & E & S).
  destruct (body st) as [[a | e] st1]; cbn in *.
  - exists new. split; assumption.
  - destruct (Hh e st1) as (E2 & _). exists new. rewrite E2. split; assumption.
Qed.

Lemma stopping_if {A} (b : bool) (c1 c2 : M World A) :
  stopping c1 -> stopping c2 -> stopping (if b then c1 else c2).
Proof. destruct b; auto. Qed.

Lemma stopping_pure {A} (c : M World A) : quiet (fun _ => True) c -> stopping c.
Proof. apply quiet_stopping. Qed.

Lemma quiet_missing args a b : quiet (World := World) (fun _ => True) (missing args a b).
Proof.
  intros st. unfold missing, bind, lift, ret.
  destruct (property args a) as [x | e]; cbn; [| repeat split].
  destruct (truthy x); cbn; [| repeat split].
  destruct (property args b) as [y | e]; cbn; repeat split.
Qed.

Ltac stop_step :=
  first
    [ apply stopping_call
    | apply stopping_pure, quiet_lift
    | apply stopping_pure, quiet_missing
    | apply (quiet_stopping (fun _ => True)), quiet_ret; exact I
    | apply (quiet_stopping (fun _ => True)), quiet_throw
    | apply stopping_if
    | apply stopping_bind; [ discharge_guarded | | intros ? ]
    | apply (stopping_try_catch (fun _ => True)); [ | intros ? ]
    | apply quiet_throw
    | apply quiet_ret; exact I ].

Ltac discharge_stopping := cbv zeta; repeat (stop_step; cbv zeta).

Lemma stopping_tool_switch name args : stopping (tool_switch name args).
Proof.
  unfold tool_switch, get_account_info, get_phone_numbers, send_sms, initiate_call,
    get_call_history, get_user_info, get_devices.
  discharge_stopping.
Qed.

Lemma stopping_fetch uri : stopping (fetch uri).
Proof. unfold fetch. discharge_stopping. Qed.

Lemma stopping_ReadResource uri : stopping (ReadResource uri).
Proof.
  intros st. unfold ReadResource, bind, read_cache, try_catch. cbn.
  destruct (slot_truthy _); cbn.
  - exists []. rewrite app_nil_r. split; [reflexivity | apply stops_nil].
  - destruct (stopping_fetch uri st) as (new & E & S).
    destruct (fetch uri st) as [[data | e] st1]; cbn in *; exists new; split; assumption.
Qed.

Lemma stopping_CallTool name args : stopping (CallTool name args).
Proof.
  unfold CallTool. apply (stopping_try_catch (fun _ => True)).
  - apply stopping_tool_switch.
  - intros e. apply quiet_ret. exact I.
Qed.

(** X1: within one request the provider is never called again after it
    has rejected a call: in the calls logged for the request, only the last
    one can be a rejection. *)
Theorem request_stops_at_rejection request (st : State World) :
  stops_at_rejection (made st (snd (handle request st))).
Proof.
  assert (Hs : stopping (handle request)).
  { destruct request as [| uri | | name args]; cbn [handle].
    - apply (quiet_stopping (fun _ => True)), quiet_ret. exact I.
    - apply (stopping_bind_quiet (fun _ => True)); [apply stopping_ReadResource |].
      intros r. apply quiet_ret. exact I.
    - apply (quiet_stopping (fun _ => True)), quiet_ret. exact I.
    - apply (stopping_bind_quiet (fun _ => True)); [apply stopping_CallTool |].
      intros r. apply quiet_ret. exact I. }
  destruct (Hs st) as (new & E & S). rewrite (made_app _ _ _ E). exact S.
Qed.


(** *** What the caller is told *)

(** X2: when the provider rejects a call of a tool with message [m] (other
    than the final [smsModule.send] of [send_sms]), the tool call returns
    the error envelope with text ["Sipgate API error: "] followed by [m],
    which [get_account_info], [get_phone_numbers] and [send_sms] first wrap
    in their own [InternalError] message. *)
Theorem provider_failure_text name args (st : State World) c m :
  In (c, inr m) (made st (snd (CallTool name args st))) ->
  (forall data, c <> smsModule_send data) ->
  fst (CallTool name args st)
  = Return (failure ("Sipgate API error: " ++ wrapped name m)).
Proof.
  intros Hin Hns. revert Hin.
  unfold CallTool, tool_switch, wrapped.
  repeat match goal with
         | |- context [name =? ?t] => destruct (name =? t)
         end;
    unfold get_account_info, get_phone_numbers, send_sms, initiate_call,
      get_call_history, get_user_info, get_devices, missing,
      try_catch, bind, lift, call, ret, throw;
    run; log_since; intros Hin; in_log;
    try reflexivity;
    match goal with
    | Hns : forall data, smsModule_send _ <> smsModule_send data |- _ =>
        destruct (Hns _ eq_refl)
    end.
Qed.

(** X3: whenever [send_sms] hands an SMS to the provider, the text of the
    result starts with the debug information (the resolved user id and the
    chosen extension as JSON); it goes on with the recipient as the caller
    wrote it when the provider accepts, and with the provider's message, in
    an error envelope, when it rejects. *)
Theorem send_sms_report args (st : State World) data a :
  In (smsModule_send data, a) (made st (snd (CallTool "send_sms" args st))) ->
  exists webuserId response items smsExtension recipient,
    made st (snd (CallTool "send_sms" args st))
    = [(client_getAuthenticatedWebuserId, inl webuserId);
       (client_get ("/" ++ ToString webuserId ++ "/sms"), inl response);
       (smsModule_send data, a)] /\
    property response "items" = Return items /\
    element0 (js_or items (VArr [])) = Return smsExtension /\
    property args "recipient" = Return (VStr recipient) /\
    fst (CallTool "send_sms" args st)
    = Return (match a with
              | inl _ =>
                  success (Some (debug_info webuserId smsExtension ++ newline ++ newline ++
                                 "SMS sent successfully to " ++ recipient))
              | inr m =>
                  failure (debug_info webuserId smsExtension ++ newline ++ newline ++
                           "SMS Error: " ++ m)
              end).
Proof.
  unfold CallTool. rewrite tool_switch_send_sms.
  unfold send_sms, missing, try_catch, bind, lift, call, ret, throw.
  run; log_since; intros Hin; in_log.
  all: match goal with
       | E : replace_whitespace _ _ = Return _ |- _ =>
           apply replace_whitespace_returns in E as (r & -> & ->)
       end.
  all: do 5 eexists; repeat split; try eassumption; reflexivity.
Qed.

(** *** Arguments *)

(** X4: a call of [send_sms], [initiate_call] or [get_call_history] that
    carries no arguments object ([arguments] left out, or [null]) makes no
    provider call and changes nothing; the [TypeError] of the first
    property read is reported in an error envelope ([send_sms] wraps it in
    its [InternalError] first). *)
Theorem arguments_absent args (st : State World) :
  args = VUndefined \/ args = VNull ->
  CallTool "send_sms" args st
  = (Return (failure ("Sipgate API error: " ++
                      McpError_message InternalError
                        ("SMS sending failed: " ++
                         TypeError_message (ReadPropertyOf args "recipient")))), st) /\
  CallTool "initiate_call" args st
  = (Return (failure ("Sipgate API error: " ++
                      TypeError_message (ReadPropertyOf args "from"))), st) /\
  CallTool "get_call_history" args st
  = (Return (failure ("Sipgate API error: " ++
                      TypeError_message (ReadPropertyOf args "limit"))), st).
Proof. intros [-> | ->]; repeat split. Qed.

(** X5: [get_call_history] forwards a numeric [limit] and a list of [types]
    as they are (whatever the list holds, the empty list included), except
    that a [limit] of 0 is replaced by 10; this is the only provider call
    it makes. *)
Theorem get_call_history_forwards fields n types (st : State World) :
  lookup_field "limit" fields = VNum n ->
  lookup_field "types" fields = VArr types ->
  made st (snd (CallTool "get_call_history" (VObj fields) st))
  = [(historyModule_fetchAll
        (VObj [("limit", VNum (if (n =? 0)%Z then 10 else n)); ("types", VArr types)]),
      fst (answer (historyModule_fetchAll
                     (VObj [("limit", VNum (if (n =? 0)%Z then 10 else n));
                            ("types", VArr types)]))
                  (world st)))].
Proof.
  intros Hl Ht. unfold CallTool, try_catch.
  change (tool_switch "get_call_history" (VObj fields))
    with (get_call_history (VObj fields)).
  unfold get_call_history, bind, lift, call, ret. cbn [property].
  rewrite Hl, Ht. unfold js_or. cbn [truthy].
  destruct (n =? 0)%Z; cbn [negb];
    match goal with
    | |- context [answer ?q ?w] => destruct (answer q w) as [[? | ?] ?]
    end; cbn [fst snd]; log_since; reflexivity.
Qed.


(** *** Listings and dispatch agree *)

Lemma property_throws base name e :
  property base name = Throw e -> e = TypeError (ReadPropertyOf base name).
Proof. destruct base; cbn; intros E; inversion E; reflexivity. Qed.

(** X7: the [switch] throws [MethodNotFound] exactly for the names that the
    tool listing does not contain, and then with the message
    ["Unknown tool: "] followed by the name. *)
Theorem MethodNotFound_iff_unlisted name args (st : State World) m :
  fst (tool_switch name args st) = Throw (McpError MethodNotFound m) <->
  ~ In name tool_names /\ m = "Unknown tool: " ++ name.
Proof.
  split.
  - unfold tool_switch.
    repeat match goal with
           | |- context [name =? ?t] => destruct (String.eqb_spec name t)
           end.
    8: { cbn. intros E. inversion E. split; [| reflexivity].
         cbn. intuition congruence. }
    all: unfold get_account_info, get_phone_numbers, send_sms, initiate_call,
           get_call_history, get_user_info, get_devices, missing,
           try_catch, bind, lift, call, ret, throw;
      run; intros E;
      repeat match goal with
             | P : property _ _ = Throw _ |- _ => apply property_throws in P; subst
             end;
      discriminate E.
  - intros [Hn ->]. rewrite (unknown_tool name Hn). reflexivity.
Qed.

(** X8: a read contacts the provider exactly when its uri is one of the
    four listed ones and the cache holds nothing truthy under it. *)
Theorem ReadResource_contacts_provider uri (st : State World) :
  made st (snd (ReadResource uri st)) <> [] <->
  In uri resource_uris /\ slot_truthy (cache_read (cachedResources st) uri) = false.
Proof.
  rewrite known_uri.
  unfold ReadResource, fetch, bind, read_cache, try_catch, write_cache, call, throw, ret.
  cbn [fst snd].
  destruct (slot_truthy (cache_read (cachedResources st) uri)).
  - cbn [fst snd]. log_since.
    split; [intros Hne; destruct Hne; reflexivity | intros [_ E]; discriminate E].
  - repeat match goal with
           | |- context [uri =? ?t] => destruct (String.eqb_spec uri t)
           end;
      run; log_since;
      first [ split; [intros _; split; [tauto | reflexivity] | discriminate]
            | split; [intros Hne; destruct Hne; reflexivity | intros [Hk _]; tauto] ].
Qed.

(** *** The cache *)

Lemma handle_other_entry request (st : State World) uri :
  request <> ReadResourceRequest uri ->
  cachedResources (snd (handle request st)) !! uri = cachedResources st !! uri.
Proof.
  intros Hne. destruct request as [| uri' | | name args]; cbn; try reflexivity.
  - unfold bind.
    destruct (ReadResource_cache uri' st) as [E | (_ & data & E)];
      destruct (ReadResource uri' st) as [[r | e] st1]; cbn in *; rewrite E;
      try reflexivity; apply lookup_insert_ne; congruence.
  - unfold bind. pose proof (CallTool_cache name args st) as E.
    destruct (CallTool name args st) as [[r | e] st1]; cbn in *; rewrite E; reflexivity.
Qed.

(** X9: requests that do not read a uri leave its cache entry as it is:
    tool calls, listings and reads of other uris neither fill, change nor
    drop it. *)
Theorem serve_other_entry requests (st : State World) uri :
  ~ In (ReadResourceRequest uri) requests ->
  cachedResources (serve requests st) !! uri = cachedResources st !! uri.
Proof.
  revert st. induction requests as [| request rest IH]; intros st Hn; cbn.
  - reflexivity.
  - rewrite IH by (intros Hin; apply Hn; right; exact Hin).
    apply handle_other_entry. intros ->. apply Hn. left. reflexivity.
Qed.

Lemma handle_keeps_key request (st : State World) uri :
  is_Some (cachedResources st !! uri) ->
  is_Some (cachedResources (snd (handle request st)) !! uri).
Proof.
  intros Hs. destruct request as [| uri' | | name args]; cbn; try exact Hs.
  - unfold bind.
    destruct (ReadResource_cache uri' st) as [E | (_ & data & E)];
      destruct (ReadResource uri' st) as [[r | e] st1]; cbn in *; rewrite E;
      try exact Hs; rewrite lookup_insert_is_Some; destruct (decide (uri' = uri)); auto.
  - unfold bind. pose proof (CallTool_cache name args st) as E.
    destruct (CallTool name args st) as [[r | e] st1]; cbn in *; rewrite E; exact Hs.
Qed.

(** X10: nothing is ever removed from the cache: a uri that has an entry
    keeps one through every further request. *)
Theorem cache_never_shrinks requests (st : State World) uri :
  is_Some (cachedResources st !! uri) ->
  is_Some (cachedResources (serve requests st) !! uri).
Proof.
  revert st. induction requests as [| request rest IH]; intros st Hs; cbn.
  - exact Hs.
  - apply IH, handle_keeps_key, Hs.
Qed.

(** X11: starting from a fresh server, the cache only ever holds entries
    for the four listed uris, so it never has more than four entries. *)
Theorem cache_holds_listed_uris requests (w : World) :
  (forall uri, is_Some (cachedResources (serve requests (start w)) !! uri) ->
               In uri resource_uris) /\
  size (cachedResources (serve requests (start w))) <= 4.
Proof.
  assert (Hk : forall uri, is_Some (cachedResources (serve requests (start w)) !! uri) ->
                           In uri resource_uris).
  { intros uri Hs. apply (serve_caches_known requests (start w)).
    - intros u. cbn. rewrite lookup_empty. congruence.
    - destruct Hs as [v Hv]. congruence. }
  split; [exact Hk |].
  rewrite <- size_dom.
  transitivity (size (list_to_set (C := gset string) resource_uris)).
  - apply subseteq_size. intros uri Hd. apply elem_of_dom in Hd.
    apply elem_of_list_to_set, list_elem_of_In, Hk, Hd.
  - rewrite size_list_to_set; [reflexivity |].
    apply NoDup_ListNoDup. repeat constructor; cbn; intuition discriminate.
Qed.

(** X12: a read whose uri is the name of a function that every object
    inherits ([constructor], [toString], ...) finds that function where it
    looks for a cached value: in every state the server reaches from a
    fresh start it answers, without any provider call and without an
    error, with contents that have no text. *)
Theorem ReadResource_inherited_name requests (w : World) name :
  In name Object_prototype_functions ->
  ReadResource name (serve requests (start w))
  = (Return (json_contents name None), serve requests (start w)).
Proof.
  intros Hin.
  assert (Hnone : cachedResources (serve requests (start w)) !! name = None).
  { destruct (cachedResources (serve requests (start w)) !! name) eqn:E; [| reflexivity].
    assert (Hk : In name resource_uris).
    { apply (serve_caches_known requests (start w)).
      - intros u. cbn. rewrite lookup_empty. congruence.
      - rewrite E. discriminate. }
    exfalso. revert Hk. cbn in Hin |- *.
    intuition (subst; discriminate). }
  assert (Hi : inherited name = BuiltinFunction).
  { cbn in Hin. intuition (subst; reflexivity). }
  unfold ReadResource, bind, read_cache, cache_read. rewrite Hnone, Hi. reflexivity.
Qed.

(** *** Whitespace *)

Lemma strip_whitespace_length s :
  String.length (strip_whitespace s) <= String.length s.
Proof.
  induction s as [| c s IH]; cbn; [lia |].
  destruct (is_whitespace c); cbn; lia.
Qed.

(** X13: stripping is idempotent, and it leaves a recipient unchanged
    exactly when the recipient has no whitespace character. *)
Theorem strip_whitespace_fixed s :
  strip_whitespace (strip_whitespace s) = strip_whitespace s /\
  (strip_whitespace s = s <->
   forallb (fun c => negb (is_whitespace c)) (list_ascii_of_string s) = true).
Proof.
  split.
  - induction s as [| c s IH]; cbn; [reflexivity |].
    destruct (is_whitespace c) eqn:E; cbn; [exact IH |]. rewrite E, IH. reflexivity.
  - induction s as [| c s IH]; cbn; [tauto |].
    destruct (is_whitespace c) eqn:E; cbn.
    + split; [| discriminate]. intros Heq.
      pose proof (strip_whitespace_length s) as Hl. rewrite Heq in Hl. cbn in Hl. lia.
    + rewrite <- IH. split; [intros Heq; inversion Heq; congruence | intros ->; reflexivity].
Qed.

(** *** Resources and tools *)

(** X16: for account, numbers and devices, a read that misses the cache and
    the tool of the same data put the same calls to the provider and leave
    it in the same state; when the read caches a truthy value, the read and
    the tool return the same JSON text. *)
Theorem resource_matches_tool uri name args (st : State World) :
  In (uri, name) [("sipgate://account", "get_account_info");
                  ("sipgate://numbers", "get_phone_numbers");
                  ("sipgate://devices", "get_devices")] ->
  slot_truthy (cache_read (cachedResources st) uri) = false ->
  made st (snd (ReadResource uri st)) = made st (snd (CallTool name args st)) /\
  world (snd (ReadResource uri st)) = world (snd (CallTool name args st)) /\
  forall data,
    cachedResources (snd (ReadResource uri st)) !! uri = Some data ->
    truthy data = true ->
    fst (ReadResource uri st) = Return (json_contents uri (JSON_stringify data)) /\
    fst (CallTool name args st) = Return (success (JSON_stringify data)).
Proof.
  intros Hin Hmiss.
  assert (Hold : forall data, cachedResources st !! uri = Some data -> truthy data = false).
  { intros data E. unfold cache_read in Hmiss. rewrite E in Hmiss. exact Hmiss. }
  unfold ReadResource, bind, read_cache. cbn [fst snd]. rewrite Hmiss.
  destruct Hin as [E | [E | [E | []]]]; inversion E; subst; clear E;
    unfold CallTool, tool_switch; cbn [String.eqb Ascii.eqb Bool.eqb];
    unfold fetch; cbn [String.eqb Ascii.eqb Bool.eqb];
    unfold get_account_info, get_phone_numbers, get_devices,
      try_catch, bind, write_cache, call, ret, throw;
    run; log_since; (split; [reflexivity |]); (split; [reflexivity |]);
    intros data Hd Ht;
    try (rewrite lookup_insert_eq in Hd; inversion Hd; subst;
         rewrite ?Ht in *; try discriminate; split; reflexivity);
    try (rewrite (Hold _ Hd) in Ht; discriminate Ht).
Qed.

End Properties.

(** A rejected [getDevices] call, reported by the outer boundary. *)
Lemma CallTool_outer_boundary_witness :
  rejected (made (start [inl (VStr "w0"); inr "503"])
                 (snd (CallTool "get_devices" (VObj [])
                                (start [inl (VStr "w0"); inr "503"])))) /\
  exists env,
    fst (CallTool "get_devices" (VObj []) (start [inl (VStr "w0"); inr "503"]))
      = Return env /\
    error_envelope env /\
    (forall e, fst (tool_switch "get_devices" (VObj [])
                                (start [inl (VStr "w0"); inr "503"])) = Throw e ->
               env = failure ("Sipgate API error: " ++ message e)).
Proof.
  assert (R : rejected (made (start [inl (VStr "w0"); inr "503"])
                             (snd (CallTool "get_devices" (VObj [])
                                            (start [inl (VStr "w0"); inr "503"]))))).
  { exists (devicesModule_getDevices (VStr "w0")), "503". vm_compute. right. left.
    reflexivity. }
  split; [exact R |].
  apply CallTool_outer_boundary. right. exact R.
Defined.

(** An unknown tool name, answered with an envelope. *)
Lemma CallTool_malformed_request_witness :
  malformed "lookup_contact" (VObj []) /\
  exists code m,
    fst (tool_switch "lookup_contact" (VObj []) (start [])) = Throw (McpError code m) /\
    CallTool "lookup_contact" (VObj []) (start [])
    = (Return (failure ("Sipgate API error: " ++ McpError_message code m)), start []) /\
    (~ In "lookup_contact" tool_names -> code = MethodNotFound) /\
    ("lookup_contact" = "initiate_call" -> code = InvalidParams) /\
    ("lookup_contact" = "send_sms" -> code = InternalError).
Proof.
  assert (Hm : malformed "lookup_contact" (VObj [])).
  { left. simpl. intuition discriminate. }
  split; [exact Hm |].
  apply (CallTool_malformed_request "lookup_contact" (VObj []) (start [])). exact Hm.
Defined.

(** C3 as stated fails: a cached [null] is an entry of the cache, yet the
    next read of the uri asks the provider again and returns what the
    provider says now. *)
Lemma cached_falsy_entry_is_refetched :
  ~ (forall (st : State (list (value + string))) uri v,
       cachedResources st !! uri = Some v ->
       ReadResource uri st = (Return (json_contents uri (JSON_stringify v)), st)).
Proof.
  intros Claim.
  specialize (Claim (snd (ReadResource "sipgate://account"
                                       (start [inl VNull; inl sample_account])))
                    "sipgate://account" VNull).
  assert (Hc : cachedResources
                 (snd (ReadResource "sipgate://account"
                                    (start [inl VNull; inl sample_account])))
               !! "sipgate://account" = Some VNull) by (vm_compute; reflexivity).
  specialize (Claim Hc). vm_compute in Claim. discriminate Claim.
Qed.

(** A cached account object survives reads and tool calls. *)
Lemma cached_truthy_entry_is_final_witness :
  cachedResources
    (snd (ReadResource "sipgate://account"
                       (start [inl sample_account; inl VNull; inr "503"; inl VNull])))
    !! "sipgate://account" = Some sample_account /\
  truthy sample_account = true /\
  ReadResource "sipgate://account"
    (serve [ReadResourceRequest "sipgate://numbers";
            CallToolRequest "get_account_info" (VObj []);
            ReadResourceRequest "sipgate://account"]
           (snd (ReadResource "sipgate://account"
                              (start [inl sample_account; inl VNull; inr "503"; inl VNull]))))
  = (Return (json_contents "sipgate://account" (JSON_stringify sample_account)),
     serve [ReadResourceRequest "sipgate://numbers";
            CallToolRequest "get_account_info" (VObj []);
            ReadResourceRequest "sipgate://account"]
           (snd (ReadResource "sipgate://account"
                              (start [inl sample_account; inl VNull; inr "503"; inl VNull])))).
Proof.
  assert (Hc : cachedResources
                 (snd (ReadResource "sipgate://account"
                         (start [inl sample_account; inl VNull; inr "503"; inl VNull])))
               !! "sipgate://account" = Some sample_account)
    by (vm_compute; reflexivity).
  split; [exact Hc |]. split; [reflexivity |].
  apply (cached_truthy_entry_is_final
           [ReadResourceRequest "sipgate://numbers";
            CallToolRequest "get_account_info" (VObj []);
            ReadResourceRequest "sipgate://account"]
           _ "sipgate://account" sample_account Hc).
  reflexivity.
Defined.

(** A uri outside the four descriptors. *)
Lemma ReadResource_unknown_uri_witness :
  ~ In "sipgate://voicemail" resource_uris /\
  inherited "sipgate://voicemail" = Data VUndefined /\
  ReadResource "sipgate://voicemail"
               (serve [ReadResourceRequest "sipgate://numbers"] (start [inl (VArr [])]))
  = (Throw (McpError InternalError
              ("Sipgate API error: " ++
               McpError_message InvalidRequest ("Invalid URI: " ++ "sipgate://voicemail"))),
     serve [ReadResourceRequest "sipgate://numbers"] (start [inl (VArr [])])).
Proof.
  assert (Hu : ~ In "sipgate://voicemail" resource_uris).
  { simpl. intuition discriminate. }
  split; [exact Hu |]. split; [reflexivity |].
  apply (ReadResource_unknown_uri [ReadResourceRequest "sipgate://numbers"]
                                  [inl (VArr [])] "sipgate://voicemail" Hu).
  reflexivity.
Defined.

(** A devices read whose second provider call is rejected. *)
Lemma ReadResource_provider_failure_witness :
  In (devicesModule_getDevices (VStr "w0"), inr "Unauthorized")
     (made (start [inl (VStr "w0"); inr "Unauthorized"])
           (snd (ReadResource "sipgate://devices"
                              (start [inl (VStr "w0"); inr "Unauthorized"])))) /\
  fst (ReadResource "sipgate://devices" (start [inl (VStr "w0"); inr "Unauthorized"]))
  = Throw (McpError InternalError ("Sipgate API error: " ++ "Unauthorized")) /\
  cachedResources (snd (ReadResource "sipgate://devices"
                                     (start [inl (VStr "w0"); inr "Unauthorized"])))
  = cachedResources (start [inl (VStr "w0"); inr "Unauthorized"]).
Proof.
  assert (Hin : In (devicesModule_getDevices (VStr "w0"), inr "Unauthorized")
                   (made (start [inl (VStr "w0"); inr "Unauthorized"])
                         (snd (ReadResource "sipgate://devices"
                                 (start [inl (VStr "w0"); inr "Unauthorized"]))))).
  { vm_compute. right. left. reflexivity. }
  split; [exact Hin |].
  apply (ReadResource_provider_failure "sipgate://devices"
           (start [inl (VStr "w0"); inr "Unauthorized"])
           (devicesModule_getDevices (VStr "w0")) "Unauthorized" Hin).
Defined.

(** C5 at an empty list: each of the three tools answers with the JSON text
    of the empty array; the fallback text is used for [null] only. *)
Lemma empty_collection_is_serialized :
  fst (CallTool "get_phone_numbers" (VObj []) (start [inl (VArr [])]))
  = Return (success (Some "[]")) /\
  fst (CallTool "get_devices" (VObj []) (start [inl (VStr "w0"); inl (VArr [])]))
  = Return (success (Some "[]")) /\
  fst (CallTool "get_call_history" (VObj []) (start [inl (VArr [])]))
  = Return (success (Some "[]")) /\
  fst (CallTool "get_phone_numbers" (VObj []) (start [inl VNull]))
  = Return (success (Some "No phone numbers available")) /\
  fst (CallTool "get_devices" (VObj []) (start [inl (VStr "w0"); inl VNull]))
  = Return (success (Some "No devices available")) /\
  fst (CallTool "get_call_history" (VObj []) (start [inl VNull]))
  = Return (success (Some "No call history available")).
Proof. repeat split; vm_compute; reflexivity. Qed.

(** C6 at [send_sms] without [smsId]: the descriptor requires it, the
    handler does not look at it, the provider is called three times and the
    SMS is sent.  Where the handlers do check ([recipient], [to]), the
    [InvalidParams] error ends up as the text of an envelope. *)
Lemma send_sms_without_smsId :
  In "smsId" (required "send_sms") /\
  property sms_without_smsId "smsId" = Return VUndefined /\
  (exists text,
     CallTool "send_sms" sms_without_smsId (start sms_script)
     = (Return (success (Some text)),
        {| world := [];
           calls := [(client_getAuthenticatedWebuserId, inl (VStr "w0"));
                     (client_get "/w0/sms", inl listed_extensions);
                     (smsModule_send sent_sms, inl VUndefined)];
           cachedResources := ∅ |})) /\
  CallTool "send_sms" (VObj [("smsId", VStr "s0"); ("message", VStr "hi")]) (start [])
  = (Return (failure ("Sipgate API error: MCP error -32603: SMS sending failed: " ++
                      "MCP error -32602: Missing required parameters: " ++
                      "recipient and message are required")),
     start []) /\
  CallTool "initiate_call" (VObj [("from", VStr "e0")]) (start [])
  = (Return (failure ("Sipgate API error: MCP error -32602: " ++
                      "Missing required parameters: from and to are required")),
     start []).
Proof.
  split; [vm_compute; auto |]. split; [reflexivity |].
  split; [eexists; vm_compute; reflexivity |].
  split; vm_compute; reflexivity.
Qed.

(** The caller asks for [s9]; the provider lists [s1] before [s0]; the SMS
    goes out through [s1]. *)
Lemma send_sms_first_extension_witness :
  In (client_get "/w0/sms", inl listed_extensions)
     (made (start sms_script) (snd (CallTool "send_sms" sms_arguments (start sms_script)))) /\
  property listed_extensions "items"
  = Return (VArr [VObj [("id", VStr "s1")]; VObj [("id", VStr "s0")]]) /\
  In (smsModule_send sent_sms, inl VUndefined)
     (made (start sms_script) (snd (CallTool "send_sms" sms_arguments (start sms_script)))) /\
  exists id, property (VObj [("id", VStr "s1")]) "id" = Return id /\
             property sent_sms "smsId" = Return id.
Proof.
  assert (Hget : In (client_get "/w0/sms", inl listed_extensions)
                    (made (start sms_script)
                          (snd (CallTool "send_sms" sms_arguments (start sms_script))))).
  { vm_compute. right. left. reflexivity. }
  assert (Hsend : In (smsModule_send sent_sms, inl VUndefined)
                     (made (start sms_script)
                           (snd (CallTool "send_sms" sms_arguments (start sms_script))))).
  { vm_compute. right. right. left. reflexivity. }
  split; [exact Hget |]. split; [reflexivity |]. split; [exact Hsend |].
  destruct (send_sms_first_extension sms_arguments (start sms_script) "/w0/sms"
              listed_extensions
              (VArr [VObj [("id", VStr "s1")]; VObj [("id", VStr "s0")]])
              Hget eq_refl) as [Hfirst _].
  destruct (Hfirst (VObj [("id", VStr "s1")]) [VObj [("id", VStr "s0")]] eq_refl)
    as [Huses _].
  exact (Huses sent_sms (inl VUndefined) Hsend).
Defined.

Example strip_whitespace_example :
  strip_whitespace "+49 151 2345 6789" = "+4915123456789".
Proof. reflexivity. Qed.

(** The recipient of the specification's example, as forwarded. *)
Lemma send_sms_strips_whitespace_witness :
  In (smsModule_send sent_sms, inl VUndefined)
     (made (start sms_script) (snd (CallTool "send_sms" sms_arguments (start sms_script)))) /\
  exists recipient,
    property sms_arguments "recipient" = Return (VStr recipient) /\
    property sent_sms "to" = Return (VStr (strip_whitespace recipient)) /\
    list_ascii_of_string (strip_whitespace recipient)
    = filter (fun c => negb (is_whitespace c)) (list_ascii_of_string recipient).
Proof.
  assert (Hsend : In (smsModule_send sent_sms, inl VUndefined)
                     (made (start sms_script)
                           (snd (CallTool "send_sms" sms_arguments (start sms_script))))).
  { vm_compute. right. right. left. reflexivity. }
  split; [exact Hsend |].
  exact (send_sms_strips_whitespace sms_arguments (start sms_script) sent_sms
           (inl VUndefined) Hsend).
Defined.

(** [get_call_history] with [{}]. *)
Lemma get_call_history_defaults_witness :
  lookup_field "limit" [] = VUndefined /\
  lookup_field "types" [] = VUndefined /\
  made (start [inl (VArr [history_entry])])
       (snd (CallTool "get_call_history" (VObj []) (start [inl (VArr [history_entry])])))
  = [(historyModule_fetchAll default_filter,
      fst (answer (historyModule_fetchAll default_filter)
                  (world (start [inl (VArr [history_entry])]))))] /\
  forall history,
    fst (answer (historyModule_fetchAll default_filter)
                (world (start [inl (VArr [history_entry])]))) = inl (VArr history) ->
    fst (CallTool "get_call_history" (VObj []) (start [inl (VArr [history_entry])]))
    = Return (success (JSON_stringify (VArr history))).
Proof.
  split; [reflexivity |]. split; [reflexivity |].
  apply (get_call_history_defaults [] (start [inl (VArr [history_entry])])); reflexivity.
Defined.

(** *** Start-up *)

Lemma env_or_empty (env : gmap string string) name :
  js_or (env_var env name) (VStr EmptyString)
  = VStr (match env !! name with Some s => s | None => EmptyString end).
Proof.
  unfold js_or, env_var. destruct (env !! name) as [s |]; [| reflexivity].
  cbn. destruct (String.eqb_spec s EmptyString) as [-> | _]; reflexivity.
Qed.

(** X14: the credentials check passes exactly when both variables are set
    to non-empty strings, and then yields them; in every other case
    (a variable not set, or set to the empty string) it throws the same
    [Error]. *)
Theorem credentials_required (env : gmap string string) :
  (forall a b,
     credentials env = Return (a, b) <->
     exists id token,
       env !! "SIPGATE_TOKEN_ID" = Some id /\ id <> EmptyString /\
       env !! "SIPGATE_TOKEN" = Some token /\ token <> EmptyString /\
       a = VStr id /\ b = VStr token) /\
  (forall e,
     credentials env = Throw e ->
     e = Error "SIPGATE_TOKEN_ID and SIPGATE_TOKEN environment variables are required").
Proof.
  unfold credentials. cbv zeta. rewrite !env_or_empty. cbn [truthy].
  destruct (env !! "SIPGATE_TOKEN_ID") as [id |];
    destruct (env !! "SIPGATE_TOKEN") as [token |];
    try destruct (String.eqb_spec id EmptyString);
    try destruct (String.eqb_spec token EmptyString); cbn; split;
    try (intros x E; inversion E; reflexivity);
    intros a b;
    (split; [intros E; inversion E; subst
            | intros (i & t & E1 & N1 & E2 & N2 & -> & ->)]);
    try discriminate; try congruence.
  do 2 eexists; repeat split; eauto.
Qed.

(** *** Concrete runs of the further properties *)

(** [get_user_info] when the profile request is rejected. *)
Lemma provider_failure_text_witness :
  In (client_get "/users/w0", inr "Not Found")
     (made (start [inl (VStr "w0"); inr "Not Found"])
           (snd (CallTool "get_user_info" (VObj [])
                          (start [inl (VStr "w0"); inr "Not Found"])))) /\
  (forall data, client_get "/users/w0" <> smsModule_send data) /\
  fst (CallTool "get_user_info" (VObj []) (start [inl (VStr "w0"); inr "Not Found"]))
  = Return (failure ("Sipgate API error: " ++ wrapped "get_user_info" "Not Found")).
Proof.
  assert (Hin : In (client_get "/users/w0", inr "Not Found")
                   (made (start [inl (VStr "w0"); inr "Not Found"])
                         (snd (CallTool "get_user_info" (VObj [])
                                        (start [inl (VStr "w0"); inr "Not Found"]))))).
  { vm_compute. right. left. reflexivity. }
  assert (Hns : forall data, client_get "/users/w0" <> smsModule_send data).
  { intros data. discriminate. }
  split; [exact Hin |]. split; [exact Hns |].
  exact (provider_failure_text "get_user_info" (VObj [])
           (start [inl (VStr "w0"); inr "Not Found"])
           (client_get "/users/w0") "Not Found" Hin Hns).
Defined.

(** An accepted SMS and its report. *)
Lemma send_sms_report_witness :
  In (smsModule_send sent_sms, inl VUndefined)
     (made (start sms_script) (snd (CallTool "send_sms" sms_arguments (start sms_script)))) /\
  exists webuserId response items smsExtension recipient,
    made (start sms_script) (snd (CallTool "send_sms" sms_arguments (start sms_script)))
    = [(client_getAuthenticatedWebuserId, inl webuserId);
       (client_get ("/" ++ ToString webuserId ++ "/sms"), inl response);
       (smsModule_send sent_sms, inl VUndefined)] /\
    property response "items" = Return items /\
    element0 (js_or items (VArr [])) = Return smsExtension /\
    property sms_arguments "recipient" = Return (VStr recipient) /\
    fst (CallTool "send_sms" sms_arguments (start sms_script))
    = Return (success (Some (debug_info webuserId smsExtension ++ newline ++ newline ++
                             "SMS sent successfully to " ++ recipient))).
Proof.
  assert (Hsend : In (smsModule_send sent_sms, inl VUndefined)
                     (made (start sms_script)
                           (snd (CallTool "send_sms" sms_arguments (start sms_script))))).
  { vm_compute. right. right. left. reflexivity. }
  split; [exact Hsend |].
  exact (send_sms_report sms_arguments (start sms_script) sent_sms (inl VUndefined) Hsend).
Defined.

(** A tool call without [arguments]. *)
Lemma arguments_absent_witness :
  (VUndefined = VUndefined \/ VUndefined = VNull) /\
  CallTool "send_sms" VUndefined (start [])
  = (Return (failure ("Sipgate API error: " ++
                      McpError_message InternalError
                        ("SMS sending failed: " ++
                         TypeError_message (ReadPropertyOf VUndefined "recipient")))),
     start []) /\
  CallTool "initiate_call" VUndefined (start [])
  = (Return (failure ("Sipgate API error: " ++
                      TypeError_message (ReadPropertyOf VUndefined "from"))), start []) /\
  CallTool "get_call_history" VUndefined (start [])
  = (Return (failure ("Sipgate API error: " ++
                      TypeError_message (ReadPropertyOf VUndefined "limit"))), start []).
Proof.
  split; [left; reflexivity |].
  apply (arguments_absent VUndefined (start [])). left. reflexivity.
Defined.

(** [limit: 0] and [types: []]. *)
Lemma get_call_history_forwards_witness :
  lookup_field "limit" [("limit", VNum 0); ("types", VArr [])] = VNum 0 /\
  lookup_field "types" [("limit", VNum 0); ("types", VArr [])] = VArr [] /\
  made (start [inl (VArr [])])
       (snd (CallTool "get_call_history" (VObj [("limit", VNum 0); ("types", VArr [])])
                      (start [inl (VArr [])])))
  = [(historyModule_fetchAll
        (VObj [("limit", VNum (if (0 =? 0)%Z then 10 else 0)); ("types", VArr [])]),
      fst (answer (historyModule_fetchAll
                     (VObj [("limit", VNum (if (0 =? 0)%Z then 10 else 0));
                            ("types", VArr [])]))
                  (world (start [inl (VArr [])]))))].
Proof.
  split; [reflexivity |]. split; [reflexivity |].
  apply (get_call_history_forwards [("limit", VNum 0); ("types", VArr [])] 0 []
           (start [inl (VArr [])])); reflexivity.
Defined.


(** A cached [null] for the account, untouched by a numbers read and a tool
    call. *)
Lemma serve_other_entry_witness :
  ~ In (ReadResourceRequest "sipgate://account")
       [ReadResourceRequest "sipgate://numbers";
        CallToolRequest "get_account_info" (VObj [])] /\
  cachedResources
    (serve [ReadResourceRequest "sipgate://numbers";
            CallToolRequest "get_account_info" (VObj [])]
           (snd (ReadResource "sipgate://account"
                              (start [inl VNull; inl (VArr []); inl sample_account]))))
    !! "sipgate://account"
  = cachedResources
      (snd (ReadResource "sipgate://account"
                         (start [inl VNull; inl (VArr []); inl sample_account])))
      !! "sipgate://account".
Proof.
  assert (Hn : ~ In (ReadResourceRequest "sipgate://account")
                    [ReadResourceRequest "sipgate://numbers";
                     CallToolRequest "get_account_info" (VObj [])]).
  { simpl. intuition discriminate. }
  split; [exact Hn |].
  exact (serve_other_entry _ _ "sipgate://account" Hn).
Defined.

(** A cached [null] is read again, the provider rejects, the entry stays. *)
Lemma cache_never_shrinks_witness :
  is_Some (cachedResources
             (snd (ReadResource "sipgate://account" (start [inl VNull; inr "503"])))
             !! "sipgate://account") /\
  is_Some (cachedResources
             (serve [ReadResourceRequest "sipgate://account"]
                    (snd (ReadResource "sipgate://account" (start [inl VNull; inr "503"]))))
             !! "sipgate://account").
Proof.
  assert (Hs : is_Some (cachedResources
                          (snd (ReadResource "sipgate://account"
                                             (start [inl VNull; inr "503"])))
                          !! "sipgate://account")).
  { exists VNull. vm_compute. reflexivity. }
  split; [exact Hs |].
  exact (cache_never_shrinks [ReadResourceRequest "sipgate://account"] _
           "sipgate://account" Hs).
Defined.

(** A read of ["toString"]. *)
Lemma ReadResource_inherited_name_witness :
  In "toString" Object_prototype_functions /\
  ReadResource "toString"
               (serve [ReadResourceRequest "sipgate://numbers"] (start [inl (VArr [])]))
  = (Return (json_contents "toString" None),
     serve [ReadResourceRequest "sipgate://numbers"] (start [inl (VArr [])])).
Proof.
  assert (Hin : In "toString" Object_prototype_functions).
  { simpl. auto 12. }
  split; [exact Hin |].
  exact (ReadResource_inherited_name [ReadResourceRequest "sipgate://numbers"]
           ([inl (VArr [])] : list (value + string)) "toString" Hin).
Defined.

(** The account is read, the provider changes its answer, the account is
    read again. *)
Lemma ReadResource_twice_witness :
  fst (ReadResource "sipgate://account" (start [inl sample_account; inl VNull]))
  = Return (json_contents "sipgate://account" (JSON_stringify sample_account)) /\
  cachedResources (snd (ReadResource "sipgate://account"
                                     (start [inl sample_account; inl VNull])))
    !! "sipgate://account" = Some sample_account /\
  truthy sample_account = true /\
  ReadResource "sipgate://account"
    (serve [CallToolRequest "get_account_info" (VObj [])]
           (snd (ReadResource "sipgate://account" (start [inl sample_account; inl VNull]))))
  = (Return (json_contents "sipgate://account" (JSON_stringify sample_account)),
     serve [CallToolRequest "get_account_info" (VObj [])]
           (snd (ReadResource "sipgate://account" (start [inl sample_account; inl VNull])))).
Proof.
  assert (Hr : fst (ReadResource "sipgate://account" (start [inl sample_account; inl VNull]))
               = Return (json_contents "sipgate://account" (JSON_stringify sample_account)))
    by (vm_compute; reflexivity).
  assert (Hc : cachedResources (snd (ReadResource "sipgate://account"
                                       (start [inl sample_account; inl VNull])))
               !! "sipgate://account" = Some sample_account)
    by (vm_compute; reflexivity).
  split; [exact Hr |]. split; [exact Hc |]. split; [reflexivity |].
  exact (ReadResource_twice [CallToolRequest "get_account_info" (VObj [])]
           "sipgate://account" (start [inl sample_account; inl VNull])
           _ sample_account Hr Hc eq_refl).
Defined.

(** The devices resource and [get_devices]. *)
Lemma resource_matches_tool_witness :
  In ("sipgate://devices", "get_devices")
     [("sipgate://account", "get_account_info");
      ("sipgate://numbers", "get_phone_numbers");
      ("sipgate://devices", "get_devices")] /\
  slot_truthy (cache_read (cachedResources (start ([inl (VStr "w0"); inl (VArr [])]
                                                  : list (value + string))))
                          "sipgate://devices") = false /\
  made (start [inl (VStr "w0"); inl (VArr [])])
       (snd (ReadResource "sipgate://devices" (start [inl (VStr "w0"); inl (VArr [])])))
  = made (start [inl (VStr "w0"); inl (VArr [])])
         (snd (CallTool "get_devices" (VObj []) (start [inl (VStr "w0"); inl (VArr [])]))).
Proof.
  assert (Hin : In ("sipgate://devices", "get_devices")
                   [("sipgate://account", "get_account_info");
                    ("sipgate://numbers", "get_phone_numbers");
                    ("sipgate://devices", "get_devices")]).
  { simpl. auto. }
  assert (Hmiss : slot_truthy
                    (cache_read (cachedResources (start ([inl (VStr "w0"); inl (VArr [])]
                                                  : list (value + string))))
                                "sipgate://devices") = false)
    by (vm_compute; reflexivity).
  split; [exact Hin |]. split; [exact Hmiss |].
  destruct (resource_matches_tool "sipgate://devices" "get_devices" (VObj [])
              (start [inl (VStr "w0"); inl (VArr [])]) Hin Hmiss) as [Hlog _].
  exact Hlog.
Defined.

(** *** Overlapping reads *)

Section Overlap.
Context {World : Type} `{Host World}.

(** Run with nothing in between, the step-by-step handler is the handler. *)
Lemma alone_ReadResource uri (st : State World) :
  alone (ReadResource_steps uri) st = ReadResource uri st.
Proof.
  unfold ReadResource_steps, ReadResource, fetch_steps, fetch, bind, read_cache,
    try_catch, write_cache, call, ret, throw, await.
  cbn [alone]. destruct (slot_truthy (cache_read (cachedResources st) uri)).
  - reflexivity.
  - repeat match goal with
           | |- context [uri =? ?t] => destruct (uri =? t)
           end;
      cbn [alone and_then catching];
      repeat (match goal with
              | |- context [answer ?q ?w] => destruct (answer q w) as [[? | ?] ?]
              end; cbn [alone and_then catching world calls cachedResources]);
      reflexivity.
Qed.

Lemma writes_only_and_then {A B} uri (t : Task A) (f : A -> Task B) :
  writes_only uri t -> (forall a, writes_only uri (f a)) -> writes_only uri (and_then t f).
Proof.
  intros Ht Hf. induction t as [a | e | c k IH | u k IH | u d k IH]; cbn in *; auto.
  destruct Ht as [-> Ht]. auto.
Qed.

Lemma writes_only_catching {A} uri (t : Task A) h :
  writes_only uri t -> (forall e, writes_only uri (h e)) -> writes_only uri (catching t h).
Proof.
  intros Ht Hh. induction t as [a | e | c k IH | u k IH | u d k IH]; cbn in *; auto.
  destruct Ht as [-> Ht]. auto.
Qed.

Lemma writes_only_await uri c : writes_only uri (await c).
Proof. intros [v | m]; exact I. Qed.

Lemma writes_only_ReadResource uri : writes_only uri (ReadResource_steps uri).
Proof.
  intros cached. destruct (slot_truthy cached); [exact I |].
  apply writes_only_catching; [| intros e; exact I].
  apply writes_only_and_then; [| intros data; split; [reflexivity | exact I]].
  unfold fetch_steps.
  repeat match goal with
         | |- context [uri =? ?t] => destruct (uri =? t)
         end;
    try apply writes_only_await; try exact I.
  apply writes_only_and_then; [apply writes_only_await | intros a; apply writes_only_await].
Qed.

Lemma advance_writes_only {A} u (t : Task A) cache :
  writes_only u t ->
  match fst (advance t cache) with
  | inr (c, k) => forall a, writes_only u (k a)
  | inl _ => True
  end.
Proof.
  revert cache. induction t as [a | e | c k IH | uri k IH | uri d k IH];
    intros cache Hw; cbn in *.
  - exact I.
  - exact I.
  - exact Hw.
  - apply IH, Hw.
  - apply IH, Hw.
Qed.

Lemma advance_other_entry {A} u (t : Task A) (cache : gmap string value) uri :
  writes_only u t -> u <> uri -> snd (advance t cache) !! uri = cache !! uri.
Proof.
  revert cache. induction t as [a | e | c k IH | u' k IH | u' d k IH];
    intros cache Hw Hne; cbn in *.
  - reflexivity.
  - reflexivity.
  - reflexivity.
  - apply IH; [apply Hw | exact Hne].
  - destruct Hw as [-> Hw]. rewrite IH by assumption. apply lookup_insert_ne. exact Hne.
Qed.

Lemma advance_hit uri (cache : gmap string value) v :
  cache !! uri = Some v -> truthy v = true ->
  advance (ReadResource_steps uri) cache
  = (inl (Return (json_contents uri (JSON_stringify v))), cache).
Proof.
  intros Hc Ht. cbn. unfold cache_read. rewrite Hc. cbn. rewrite Ht. reflexivity.
Qed.

Lemma In_delete {A} (l : list A) i x : In x (delete i l) -> In x l.
Proof.
  revert i. induction l as [| y l IH]; intros [| i]; cbn; auto.
  intros [-> | Hin]; eauto.
Qed.

Lemma with_cache_same (st : State World) : with_cache st (cachedResources st) = st.
Proof. destruct st; reflexivity. Qed.

Lemma provider_answers_cache c (st : State World) :
  cachedResources (snd (provider_answers c st)) = cachedResources st.
Proof. unfold provider_answers. destruct (answer c (world st)); reflexivity. Qed.

Lemma settle_cache uri r (st : State World) waiting done :
  cachedResources (now (settle uri r st waiting done)) = cachedResources st.
Proof. destruct r as [o | [c k]]; reflexivity. Qed.

Lemma settle_own_writes uri r (st : State World) waiting done :
  own_writes waiting ->
  match r with
  | inr (c, k) => forall a, writes_only uri (k a)
  | inl _ => True
  end ->
  own_writes (pending (settle uri r st waiting done)).
Proof.
  intros Hw Hr. destruct r as [o | [c k]]; cbn; [exact Hw |].
  intros p Hin. apply in_app_or in Hin as [Hin | [<- | []]]; [apply Hw, Hin | exact Hr].
Qed.

Lemma settle_in_flight uri u r (st : State World) waiting done :
  u <> uri -> ~ in_flight uri waiting ->
  ~ in_flight uri (pending (settle u r st waiting done)).
Proof.
  intros Hne Hn. destruct r as [o | [c k]]; cbn; [exact Hn |].
  intros (p & Hin & Hp). apply in_app_or in Hin as [Hin | [<- | []]].
  - apply Hn. exists p. auto.
  - cbn in Hp. contradiction.
Qed.

Lemma own_writes_delete i waiting : own_writes waiting -> own_writes (delete i waiting).
Proof. intros Hw p Hin. apply Hw. eapply In_delete, Hin. Qed.

Lemma react_own_writes e (S : Server World) :
  own_writes (pending S) -> own_writes (pending (react e S)).
Proof.
  intros Hw. destruct e as [uri | i | c]; cbn [react]; [| | exact Hw].
  - pose proof (advance_writes_only uri (ReadResource_steps uri)
                  (cachedResources (now S)) (writes_only_ReadResource uri)) as Hk.
    destruct (advance (ReadResource_steps uri) (cachedResources (now S))) as [r cache].
    apply settle_own_writes; assumption.
  - destruct (pending S !! i) as [p |] eqn:Ep; [| exact Hw].
    assert (Hin : In p (pending S)).
    { apply list_elem_of_In. eapply list_elem_of_lookup_2, Ep. }
    destruct (provider_answers (awaited p) (now S)) as [a st].
    pose proof (advance_writes_only (reading p) (continue p a) (cachedResources st)
                  (Hw p Hin a)) as Hk.
    destruct (advance (continue p a) (cachedResources st)) as [r cache].
    apply settle_own_writes; [apply own_writes_delete, Hw | exact Hk].
Qed.

Lemma happen_own_writes events (S : Server World) :
  own_writes (pending S) -> own_writes (pending (happen events S)).
Proof.
  revert S. induction events as [| e rest IH]; intros S Hw; cbn; [exact Hw |].
  apply IH, react_own_writes, Hw.
Qed.

(** While a truthy value is cached under [uri] and no read of [uri] is in
    flight, nothing that happens changes either fact. *)
Lemma react_keeps_entry e (S : Server World) uri v :
  own_writes (pending S) ->
  cachedResources (now S) !! uri = Some v -> truthy v = true ->
  ~ in_flight uri (pending S) ->
  cachedResources (now (react e S)) !! uri = Some v /\
  ~ in_flight uri (pending (react e S)).
Proof.
  intros Hw Hc Ht Hn. destruct e as [u | i | c]; cbn [react].
  - destruct (String.eqb_spec u uri) as [-> | Hne].
    + rewrite (advance_hit uri _ v Hc Ht). cbn. rewrite Hc. auto.
    + pose proof (advance_other_entry u (ReadResource_steps u) (cachedResources (now S)) uri
                    (writes_only_ReadResource u) Hne) as He.
      destruct (advance (ReadResource_steps u) (cachedResources (now S))) as [r cache].
      cbn in He. rewrite settle_cache. cbn. rewrite He. split; [exact Hc |].
      apply settle_in_flight; assumption.
  - destruct (pending S !! i) as [p |] eqn:Ep; [| auto].
    assert (Hin : In p (pending S)).
    { apply list_elem_of_In. eapply list_elem_of_lookup_2, Ep. }
    assert (Hne : reading p <> uri).
    { intros E. apply Hn. exists p. auto. }
    pose proof (provider_answers_cache (awaited p) (now S)) as Hpc.
    destruct (provider_answers (awaited p) (now S)) as [a st]. cbn in Hpc.
    pose proof (advance_other_entry (reading p) (continue p a) (cachedResources st) uri
                  (Hw p Hin a) Hne) as He.
    destruct (advance (continue p a) (cachedResources st)) as [r cache].
    cbn in He. rewrite settle_cache. cbn. rewrite He, Hpc. split; [exact Hc |].
    apply settle_in_flight; [exact Hne |].
    intros (q & Hq & Hr). apply Hn. exists q. split; [eapply In_delete, Hq | exact Hr].
  - cbn. rewrite provider_answers_cache. auto.
Qed.

Lemma happen_keeps_entry events (S : Server World) uri v :
  own_writes (pending S) ->
  cachedResources (now S) !! uri = Some v -> truthy v = true ->
  ~ in_flight uri (pending S) ->
  cachedResources (now (happen events S)) !! uri = Some v /\
  ~ in_flight uri (pending (happen events S)).
Proof.
  revert S. induction events as [| e rest IH]; intros S Hw Hc Ht Hn; cbn; [auto |].
  destruct (react_keeps_entry e S uri v Hw Hc Ht Hn) as [Hc' Hn'].
  apply IH; [apply react_own_writes, Hw | assumption..].
Qed.

(** C3, amended: on a server started fresh, once a truthy value is cached
    for a uri and no read of that uri is in flight, then whatever happens
    next (other reads arriving, awaiting and resuming in any order, tool
    handlers calling the provider), a read of that uri is answered at once
    with the JSON text of the cached value, without a provider call and
    without a change to the cache or to the reads in flight. *)
Theorem cached_entry_survives_overlap before after (w : World) uri v :
  cachedResources (now (happen before (fresh_server w))) !! uri = Some v ->
  truthy v = true ->
  ~ in_flight uri (pending (happen before (fresh_server w))) ->
  react (Arrive uri) (happen after (happen before (fresh_server w)))
  = {| now := now (happen after (happen before (fresh_server w)));
       pending := pending (happen after (happen before (fresh_server w)));
       answered :=
         (answered (happen after (happen before (fresh_server w)))
          ++ [(uri, Return (json_contents uri (JSON_stringify v)))])%list |}.
Proof.
  intros Hc Ht Hn.
  assert (Hw : own_writes (pending (happen before (fresh_server w)))).
  { apply happen_own_writes. intros p []. }
  destruct (happen_keeps_entry after _ uri v Hw Hc Ht Hn) as [Hc' _].
  cbn [react]. rewrite (advance_hit uri _ v Hc' Ht). cbn [settle].
  rewrite with_cache_same. reflexivity.
Qed.

End Overlap.

(** Two reads of the account overlap: the first caches and returns the
    first answer, the second, already past the cache check, stores and
    returns the second answer, and a third read returns the second answer
    too. *)
Example overlapping_reads_overwrite :
  cachedResources
    (now (happen [Arrive "sipgate://account"; Arrive "sipgate://account"; Resume 0]
                 (fresh_server [inl sample_account; inl (VObj [("company", VStr "Initech")])])))
    !! "sipgate://account" = Some sample_account /\
  answered
    (happen [Arrive "sipgate://account"; Arrive "sipgate://account"; Resume 0; Resume 0;
             Arrive "sipgate://account"]
            (fresh_server [inl sample_account; inl (VObj [("company", VStr "Initech")])]))
  = [("sipgate://account",
      Return (json_contents "sipgate://account" (JSON_stringify sample_account)));
     ("sipgate://account",
      Return (json_contents "sipgate://account"
                (JSON_stringify (VObj [("company", VStr "Initech")]))));
     ("sipgate://account",
      Return (json_contents "sipgate://account"
                (JSON_stringify (VObj [("company", VStr "Initech")]))))].
Proof. split; vm_compute; reflexivity. Qed.

(** The account is cached with no read in flight; a numbers read arrives
    and resumes, a tool calls the provider, and the account is read. *)
Lemma cached_entry_survives_overlap_witness :
  cachedResources
    (now (happen [Arrive "sipgate://account"; Resume 0]
                 (fresh_server [inl sample_account; inl VNull; inl (VArr [])])))
    !! "sipgate://account" = Some sample_account /\
  truthy sample_account = true /\
  ~ in_flight "sipgate://account"
      (pending (happen [Arrive "sipgate://account"; Resume 0]
                       (fresh_server [inl sample_account; inl VNull; inl (VArr [])]))) /\
  react (Arrive "sipgate://account")
        (happen [Arrive "sipgate://numbers"; ToolStep (client_get "/account"); Resume 0]
                (happen [Arrive "sipgate://account"; Resume 0]
                        (fresh_server [inl sample_account; inl VNull; inl (VArr [])])))
  = {| now := now (happen [Arrive "sipgate://numbers"; ToolStep (client_get "/account");
                           Resume 0]
                          (happen [Arrive "sipgate://account"; Resume 0]
                                  (fresh_server [inl sample_account; inl VNull;
                                                 inl (VArr [])])));
       pending := pending (happen [Arrive "sipgate://numbers";
                                   ToolStep (client_get "/account"); Resume 0]
                                  (happen [Arrive "sipgate://account"; Resume 0]
                                          (fresh_server [inl sample_account; inl VNull;
                                                         inl (VArr [])])));
       answered :=
         (answered (happen [Arrive "sipgate://numbers"; ToolStep (client_get "/account");
                            Resume 0]
                           (happen [Arrive "sipgate://account"; Resume 0]
                                   (fresh_server [inl sample_account; inl VNull;
                                                  inl (VArr [])])))
          ++ [("sipgate://account",
               Return (json_contents "sipgate://account"
                         (JSON_stringify sample_account)))])%list |}.
Proof.
  assert (Hc : cachedResources
                 (now (happen [Arrive "sipgate://account"; Resume 0]
                              (fresh_server [inl sample_account; inl VNull; inl (VArr [])])))
               !! "sipgate://account" = Some sample_account)
    by (vm_compute; reflexivity).
  assert (Hn : ~ in_flight "sipgate://account"
                   (pending (happen [Arrive "sipgate://account"; Resume 0]
                                    (fresh_server [inl sample_account; inl VNull;
                                                   inl (VArr [])])))).
  { intros (p & Hin & _). vm_compute in Hin. exact Hin. }
  split; [exact Hc |]. split; [reflexivity |]. split; [exact Hn |].
  exact (cached_entry_survives_overlap
           [Arrive "sipgate://account"; Resume 0]
           [Arrive "sipgate://numbers"; ToolStep (client_get "/account"); Resume 0]
           [inl sample_account; inl VNull; inl (VArr [])]
           "sipgate://account" sample_account Hc eq_refl Hn).
Defined.

(** *** [get_call_history] without arguments *)

Section NoArguments.
Context {World : Type} `{Host World}.

(** C10 at a call that leaves out [arguments]: reading [args.limit] throws
    a [TypeError], no provider call is made, no default is applied and the
    call ends in an error envelope; with the empty arguments object the
    same call does ask the provider with limit 10 and the four types. *)
Theorem get_call_history_arguments_omitted (st : State World) :
  CallTool "get_call_history" VUndefined st
  = (Return (failure ("Sipgate API error: " ++
                      TypeError_message (ReadPropertyOf VUndefined "limit"))), st) /\
  made st (snd (CallTool "get_call_history" VUndefined st)) = [] /\
  made st (snd (CallTool "get_call_history" (VObj []) st))
  = [(historyModule_fetchAll default_filter,
      fst (answer (historyModule_fetchAll default_filter) (world st)))].
Proof.
  split; [reflexivity |]. split; [apply made_nil; reflexivity |].
  unfold CallTool, try_catch.
  change (tool_switch "get_call_history" (VObj [])) with (get_call_history (VObj [])).
  unfold get_call_history, bind, lift, call, ret. cbn [property lookup_field js_or truthy].
  fold default_filter.
  destruct (answer (historyModule_fetchAll default_filter) (world st)) as [[h | m] w];
    cbn [fst snd]; apply made_app; reflexivity.
Qed.

End NoArguments.
